(** * Simple Tasks Blocks: the category/task store of [main.ts]

    A shallow embedding of the store operations of the plugin
    ([SimpleTasksBlocksPlugin] and [TasksView] in [src/main.ts]) and the
    properties its specification states about them.

    Conventions of the embedding.
    - A JavaScript string is a [string]; [===] is [String.eqb] and [<] is
      [String.ltb] (code-unit order).  A string is truthy when it is not
      empty.
    - An optional field ([dueDate?], [isCollapsed?], ...) is an [option];
      [None] is [undefined].
    - The settings object is threaded explicitly.  What the plugin does to
      the outside (a [saveData] call, a [refresh] of the view, a [Notice])
      is recorded in the [World] the operations transform.
    - [Date.now()] and [new Date().toISOString().split('T')[0]] are read from
      the environment: the operations take them as arguments.
    - A method runs as a whole: what it writes to the settings comes before
      its first [await], and nothing else runs in between.
    - The characters of a [string] stand for the code units below 256. *)

From Stdlib Require Import String Ascii ZArith Bool Arith Lia.
From Stdlib Require Import List.
From Stdlib Require Import Permutation Sorted OrderedTypeEx.
From Stdlib Require Import DecimalString DecimalPos DecimalZ.
Import ListNotations.

Local Open Scope list_scope.

(** ** JavaScript values *)

(** Truthiness of a string: every string but the empty one. *)
Definition truthy (s : string) : bool := negb (String.eqb s EmptyString).

(** Truthiness of an optional boolean: only [true] is truthy. *)
Definition truthy_flag (o : option bool) : bool :=
  match o with
  | Some b => b
  | None => false
  end.

(** [o || d] for an optional string [o] and a string [d]. *)
Definition or_string (o : option string) (d : string) : string :=
  match o with
  | Some s => if truthy s then s else d
  | None => d
  end.

(** [s || undefined]. *)
Definition or_undefined (s : string) : option string :=
  if truthy s then Some s else None.

(** [n.toString()] for an integral number. *)
Definition toString (n : Z) : string := NilZero.string_of_int (Z.to_int n).

(** White space removed by [String.prototype.trim], among the code units
    below 256: TAB, LF, VT, FF, CR, SP and NBSP. *)
Definition isWhiteSpace (c : ascii) : bool :=
  let n := nat_of_ascii c in
  ((9 <=? n) && (n <=? 13)) || (n =? 32) || (n =? 160).

Fixpoint trimStart (s : string) : string :=
  match s with
  | EmptyString => EmptyString
  | String c r => if isWhiteSpace c then trimStart r else s
  end.

Fixpoint trimEnd (s : string) : string :=
  match s with
  | EmptyString => EmptyString
  | String c r =>
      match trimEnd r with
      | EmptyString => if isWhiteSpace c then EmptyString else String c EmptyString
      | r' => String c r'
      end
  end.

Definition trim (s : string) : string := trimEnd (trimStart s).

(** [s.split(sep)] for a separator of one character: the pieces between the
    separators, of which there is always at least one. *)
Fixpoint split (sep : ascii) (s : string) : list string :=
  match s with
  | EmptyString => [EmptyString]
  | String c r =>
      if Ascii.eqb c sep then EmptyString :: split sep r
      else match split sep r with
           | h :: t => String c h :: t
           | [] => [String c EmptyString]
           end
  end.

(** A value in a template literal: [undefined] is written out. *)
Definition template (o : option string) : string :=
  match o with
  | Some s => s
  | None => "undefined"
  end.

(** ** Arrays *)

(** [Array.prototype.find] is [List.find], [filter] is [List.filter],
    [some] is [List.existsb]; [forEach] with an assignment to a field of each
    element is [List.map]. *)

(** The element [find] returns is the object stored in the array: a write to
    one of its fields changes the first element that satisfies [p], in
    place. *)
Fixpoint update_first {A : Type} (p : A -> bool) (f : A -> A) (l : list A) : list A :=
  match l with
  | [] => []
  | x :: r => if p x then f x :: r else x :: update_first p f r
  end.

(** The index [splice] starts at, for a requested [start] and an array of
    [len] elements: a negative [start] counts from the end, and the result is
    clamped to [0 .. len]. *)
Definition actualStart (start : Z) (len : nat) : nat :=
  if (start <? 0)%Z
  then Z.to_nat (Z.max (Z.of_nat len + start) 0)
  else Z.to_nat (Z.min start (Z.of_nat len)).

(** [l.splice(start, deleteCount, ...items)]: the removed elements and the
    array afterwards. *)
Definition splice {A : Type} (start : Z) (deleteCount : nat) (items : list A)
    (l : list A) : list A * list A :=
  let s := actualStart start (length l) in
  let d := Nat.min deleteCount (length l - s) in
  (firstn d (skipn s l), firstn s l ++ items ++ skipn (s + d) l).

(** [Array.prototype.sort(cmp)] is a stable sort: an element moves behind
    another only when the comparator says it is greater.  Insertion from the
    right end is such a sort. *)
Fixpoint sort_insert {A : Type} (cmp : A -> A -> Z) (x : A) (l : list A) : list A :=
  match l with
  | [] => [x]
  | y :: r => if (0 <? cmp x y)%Z then y :: sort_insert cmp x r else x :: l
  end.

Definition Array_sort {A : Type} (cmp : A -> A -> Z) (l : list A) : list A :=
  fold_right (sort_insert cmp) [] l.

(** An array that holds only defined elements, as a list of them. *)
Fixpoint defined {A : Type} (slots : list (option A)) : option (list A) :=
  match slots with
  | [] => Some []
  | None :: _ => None
  | Some x :: r =>
      match defined r with
      | Some l => Some (x :: l)
      | None => None
      end
  end.

(** ** Interfaces *)

Module Task.
Record t : Type := mk {
  id : string;
  text : string;
  completed : bool;
  dueDate : option string (* YYYY-MM-DD *)
}.

Definition set_completed (b : bool) (k : t) : t :=
  mk (id k) (text k) b (dueDate k).

Definition set_text (s : string) (k : t) : t :=
  mk (id k) s (completed k) (dueDate k).

Definition set_dueDate (d : string) (k : t) : t :=
  mk (id k) (text k) (completed k) (Some d).
End Task.

Inductive SortOrder : Type := asc | desc.

Module Category.
Record t : Type := mk {
  id : string;
  name : string;
  tasks : list Task.t;
  isCollapsed : option bool;
  color : option string;
  lastSortOrder : option SortOrder
}.

Definition set_tasks (ts : list Task.t) (c : t) : t :=
  mk (id c) (name c) ts (isCollapsed c) (color c) (lastSortOrder c).

Definition set_isCollapsed (b : bool) (c : t) : t :=
  mk (id c) (name c) (tasks c) (Some b) (color c) (lastSortOrder c).

Definition set_lastSortOrder (o : SortOrder) (c : t) : t :=
  mk (id c) (name c) (tasks c) (isCollapsed c) (color c) (Some o).

Definition set_name (s : string) (c : t) : t :=
  mk (id c) s (tasks c) (isCollapsed c) (color c) (lastSortOrder c).

Definition set_color (s : string) (c : t) : t :=
  mk (id c) (name c) (tasks c) (isCollapsed c) (Some s) (lastSortOrder c).
End Category.

Inductive DateFormat : Type := YYYY_MM_DD | DD_MM_YYYY | Automatic.

Record SimpleTasksBlocksSettings : Type := mkSettings {
  categories : list Category.t;
  confirmTaskDeletion : bool;
  dateFormat : DateFormat
}.

Definition DEFAULT_SETTINGS : SimpleTasksBlocksSettings :=
  mkSettings [] false Automatic.

Definition set_categories (cs : list Category.t) (s : SimpleTasksBlocksSettings)
    : SimpleTasksBlocksSettings :=
  mkSettings cs (confirmTaskDeletion s) (dateFormat s).

(** ** The plugin and its surroundings *)

(** [settings] is [plugin.settings]; [view] tells whether [plugin.view] is
    set; [saved] lists the documents handed to [saveData], the latest first;
    [refreshes] counts the calls of [view.refresh()]; [notices] lists the
    messages shown with [new Notice], the latest first. *)
Record World : Type := mkWorld {
  settings : SimpleTasksBlocksSettings;
  view : bool;
  saved : list SimpleTasksBlocksSettings;
  refreshes : nat;
  notices : list string
}.

(** The plugin after [loadSettings] found no stored data. *)
Definition initial (v : bool) : World := mkWorld DEFAULT_SETTINGS v [] 0 [].

Definition with_categories (cs : list Category.t) (w : World) : World :=
  mkWorld (set_categories cs (settings w)) (view w) (saved w) (refreshes w) (notices w).

Definition Notice (msg : string) (w : World) : World :=
  mkWorld (settings w) (view w) (saved w) (refreshes w) (msg :: notices w).

Definition hasId (i : string) (c : Category.t) : bool := String.eqb (Category.id c) i.

Definition hasTaskId (i : string) (k : Task.t) : bool := String.eqb (Task.id k) i.

Module Plugin.

(** [saveSettings]: one [saveData] of the settings, then a refresh of the
    view if there is one. *)
Definition saveSettings (w : World) : World :=
  mkWorld (settings w) (view w) (settings w :: saved w)
          (if view w then S (refreshes w) else refreshes w) (notices w).

(** [addCategory]; [nowC] and [nowT] are the two readings of [Date.now()],
    the second one made only when there is a first task. *)
Definition addCategory (nowC nowT : Z) (name firstTaskText : string)
    (dueDate : option string) (w : World) : World :=
  let newCategory := Category.mk (toString nowC) name [] (Some false) (Some EmptyString) None in
  let newCategory :=
    if truthy firstTaskText
    then Category.set_tasks
           (Category.tasks newCategory ++
              [Task.mk (toString nowT ++ "-task")%string firstTaskText false dueDate])
           newCategory
    else newCategory in
  saveSettings (with_categories (categories (settings w) ++ [newCategory]) w).

End Plugin.

(** What [reorderCategories] leaves behind: a category array again, or an
    array in which [undefined] was spliced. *)
Inductive Reordering : Type :=
| Reordered (w : World)
| UndefinedInserted (slots : list (option Category.t)).

Module TasksView.

(** The comparator handed to [sort] in [sortCategoryTasks]. *)
Definition compareTasks (newOrder : SortOrder) (todayStr : string) (a b : Task.t) : Z :=
  let dateA := or_string (Task.dueDate a) todayStr in
  let dateB := or_string (Task.dueDate b) todayStr in
  if String.eqb dateA dateB then 0%Z
  else match newOrder with
       | asc => if String.ltb dateA dateB then (-1)%Z else 1%Z
       | desc => if String.ltb dateB dateA then (-1)%Z else 1%Z
       end.

Definition orderName (o : SortOrder) : string :=
  match o with
  | asc => "ascending"
  | desc => "descending"
  end.

Definition flip (currentOrder : SortOrder) : SortOrder :=
  match currentOrder with
  | asc => desc
  | desc => asc
  end.

(** [category.lastSortOrder || 'desc']. *)
Definition currentOrder (c : Category.t) : SortOrder :=
  match Category.lastSortOrder c with
  | Some o => o
  | None => desc
  end.

(** The two writes [sortCategoryTasks] makes to the category it found. *)
Definition sorted_category (todayStr : string) (c : Category.t) : Category.t :=
  let newOrder := flip (currentOrder c) in
  Category.set_lastSortOrder newOrder
    (Category.set_tasks
       (Array_sort (compareTasks newOrder todayStr) (Category.tasks c)) c).

Definition sortCategoryTasks (todayStr categoryId : string) (w : World) : World :=
  match find (hasId categoryId) (categories (settings w)) with
  | None => w
  | Some category =>
      let newOrder := flip (currentOrder category) in
      Notice ("Sorted tasks " ++ orderName newOrder)%string
        (Plugin.saveSettings
           (with_categories
              (update_first (hasId categoryId) (sorted_category todayStr)
                 (categories (settings w))) w))
  end.

(** The array after the two [splice] calls of [reorderCategories];
    [None] is [undefined]. *)
Definition reorder_slots {A : Type} (fromIndex toIndex : Z) (l : list A)
    : list (option A) :=
  let (removed, rest) := splice fromIndex 1 [] l in
  let moved := hd_error removed in
  snd (splice toIndex 0 [moved] (map Some rest)).

Definition reorderCategories (fromIndex toIndex : Z) (w : World) : Reordering :=
  let slots := reorder_slots fromIndex toIndex (categories (settings w)) in
  match defined slots with
  | Some cs => Reordered (Plugin.saveSettings (with_categories cs w))
  | None => UndefinedInserted slots
  end.

(** The drop handler of a category block, the caller of
    [reorderCategories]: [draggedCategoryIndex] is [None] for [null], and
    [index] is the position of the block the category is dropped on.  When
    it does not call [reorderCategories] the world is as it was. *)
Definition drop (draggedCategoryIndex : option Z) (index : Z) (w : World) : Reordering :=
  match draggedCategoryIndex with
  | Some dragged =>
      if negb (Z.eqb dragged index)
      then reorderCategories dragged index w
      else Reordered w
  | None => Reordered w
  end.

Definition addCategory (nowC nowT : Z) (name firstTaskText : string) (w : World) : World :=
  Plugin.addCategory nowC nowT name firstTaskText None w.

Definition deleteCategory (id : string) (w : World) : World :=
  Plugin.saveSettings
    (with_categories
       (filter (fun c => negb (hasId id c)) (categories (settings w))) w).

Definition addTask (now : Z) (categoryId text : string) (dueDate : option string)
    (w : World) : World :=
  match find (hasId categoryId) (categories (settings w)) with
  | Some _ =>
      Plugin.saveSettings
        (with_categories
           (update_first (hasId categoryId)
              (fun c => Category.set_tasks
                          (Category.tasks c ++ [Task.mk (toString now) text false dueDate]) c)
              (categories (settings w))) w)
  | None => w
  end.

Definition toggleTask (categoryId taskId : string) (completed : bool) (w : World) : World :=
  match find (hasId categoryId) (categories (settings w)) with
  | Some category =>
      match find (hasTaskId taskId) (Category.tasks category) with
      | Some _ =>
          Plugin.saveSettings
            (with_categories
               (update_first (hasId categoryId)
                  (fun c => Category.set_tasks
                              (update_first (hasTaskId taskId)
                                 (Task.set_completed completed) (Category.tasks c)) c)
                  (categories (settings w))) w)
      | None => w
      end
  | None => w
  end.

Definition deleteTask (categoryId taskId : string) (w : World) : World :=
  match find (hasId categoryId) (categories (settings w)) with
  | Some _ =>
      Plugin.saveSettings
        (with_categories
           (update_first (hasId categoryId)
              (fun c => Category.set_tasks
                          (filter (fun k => negb (hasTaskId taskId k)) (Category.tasks c)) c)
              (categories (settings w))) w)
  | None => w
  end.

Definition toggleAllCategories (w : World) : World :=
  let anyOpen := existsb (fun c => negb (truthy_flag (Category.isCollapsed c)))
                   (categories (settings w)) in
  Plugin.saveSettings
    (with_categories
       (map (Category.set_isCollapsed anyOpen) (categories (settings w))) w).

Definition cleanCompletedTasks (w : World) : World :=
  Plugin.saveSettings
    (with_categories
       (map (fun c => Category.set_tasks
                        (filter (fun k => negb (Task.completed k)) (Category.tasks c)) c)
          (categories (settings w))) w).

(** The class [renderTask] gives the date badge of a task. *)
Inductive BadgeClass : Type := is_overdue | is_today | plain.

(** The date badge of [renderTask]: none when [task.dueDate] is falsy. *)
Definition dateBadge (todayStr : string) (task : Task.t) : option BadgeClass :=
  match Task.dueDate task with
  | Some d =>
      if truthy d then
        if String.ltb d todayStr then Some is_overdue
        else if String.eqb d todayStr then Some is_today
        else Some plain
      else None
  | None => None
  end.

(** [submit] of the inline input of [renderCategory]. *)
Definition submit (now : Z) (categoryId inputValue dateInputValue : string)
    (w : World) : World :=
  let text := trim inputValue in
  if truthy text
  then addTask now categoryId text (or_undefined dateInputValue) w
  else w.

(** [formatDate]; [moment] is the locale of [window.moment], [None] when
    there is no [window.moment]. *)
Definition formatDate (moment : option string) (s : SimpleTasksBlocksSettings)
    (dateStr : string) : string :=
  if negb (truthy dateStr) then EmptyString
  else
    let format := dateFormat s in
    let useFr :=
      match format with
      | Automatic =>
          let locale := match moment with Some l => l | None => "en"%string end in
          if String.prefix "fr" locale then true else false
      | DD_MM_YYYY => true
      | YYYY_MM_DD => false
      end in
    if useFr then
      let parts := split "-" dateStr in
      let y := nth_error parts 0 in
      let m := nth_error parts 1 in
      let d := nth_error parts 2 in
      (template d ++ "-" ++ template m ++ "-" ++ template y)%string
    else dateStr.

(** [save] of [makeEditable]: the text it hands to [onSave], [None] when it
    puts the old text back instead. *)
Definition makeEditable_save (inputValue : string) : option string :=
  let newText := trim inputValue in
  if negb (truthy newText) then None else Some newText.

(** The title of a category edited: the category as [onSave] leaves it when
    it writes and saves, [None] when it does neither. *)
Definition titleEdited (inputValue : string) (category : Category.t) : option Category.t :=
  match makeEditable_save inputValue with
  | Some newText =>
      if truthy newText && negb (String.eqb newText (Category.name category))
      then Some (Category.set_name newText category)
      else None
  | None => None
  end.

(** The text of a task edited, likewise. *)
Definition taskTextEdited (inputValue : string) (task : Task.t) : option Task.t :=
  match makeEditable_save inputValue with
  | Some newText =>
      if truthy newText && negb (String.eqb newText (Task.text task))
      then Some (Task.set_text newText task)
      else None
  | None => None
  end.

(** The [change] handler of the date input of a task: the task as it leaves
    it when it writes and saves, [None] when the value is the due date the
    task has. *)
Definition dateEdited (value : string) (task : Task.t) : option Task.t :=
  let same :=
    match Task.dueDate task with
    | Some d => String.eqb value d
    | None => false
    end in
  if negb same then Some (Task.set_dueDate value task) else None.

End TasksView.

Module AddCategoryModal.

(** The click handler of the "Create" button; [onSubmit] is
    [plugin.addCategory] at both places the modal is opened. *)
Definition submit (nowC nowT : Z) (nameInputValue taskInputValue dateInputValue : string)
    (w : World) : World :=
  let name := trim nameInputValue in
  let task := trim taskInputValue in
  let date := dateInputValue in
  if negb (truthy name) || negb (truthy task)
  then Notice "Both fields are required." w
  else Plugin.addCategory nowC nowT name task (or_undefined date) w.

End AddCategoryModal.

(** ** The store operations as commands *)

(** One call of a mutating method of the plugin or of the view, with the
    clock readings it makes. *)
Inductive Op : Type :=
| AddCategory (nowC nowT : Z) (name firstTaskText : string) (dueDate : option string)
| DeleteCategory (id : string)
| AddTask (now : Z) (categoryId text : string) (dueDate : option string)
| ToggleTask (categoryId taskId : string) (completed : bool)
| DeleteTask (categoryId taskId : string)
| SortCategoryTasks (todayStr categoryId : string)
| ReorderCategories (fromIndex toIndex : Z)
| ToggleAllCategories
| CleanCompletedTasks.

(** [run op w] is the world after the call; [None] when the call left an
    [undefined] entry in the category array, which ends the life of the
    document as a [Category[]]. *)
Definition run (op : Op) (w : World) : option World :=
  match op with
  | AddCategory nowC nowT name firstTaskText dueDate =>
      Some (Plugin.addCategory nowC nowT name firstTaskText dueDate w)
  | DeleteCategory id => Some (TasksView.deleteCategory id w)
  | AddTask now categoryId text dueDate =>
      Some (TasksView.addTask now categoryId text dueDate w)
  | ToggleTask categoryId taskId completed =>
      Some (TasksView.toggleTask categoryId taskId completed w)
  | DeleteTask categoryId taskId => Some (TasksView.deleteTask categoryId taskId w)
  | SortCategoryTasks todayStr categoryId =>
      Some (TasksView.sortCategoryTasks todayStr categoryId w)
  | ReorderCategories fromIndex toIndex =>
      match TasksView.reorderCategories fromIndex toIndex w with
      | Reordered w' => Some w'
      | UndefinedInserted _ => None
      end
  | ToggleAllCategories => Some (TasksView.toggleAllCategories w)
  | CleanCompletedTasks => Some (TasksView.cleanCompletedTasks w)
  end.

Fixpoint runAll (ops : list Op) (w : World) : option World :=
  match ops with
  | [] => Some w
  | op :: rest =>
      match run op w with
      | Some w' => runAll rest w'
      | None => None
      end
  end.

(** The worlds the plugin can be in, starting without stored data. *)
Inductive Reachable : World -> Prop :=
| reach_initial (v : bool) : Reachable (initial v)
| reach_run (op : Op) (w w' : World) :
    Reachable w -> run op w = Some w' -> Reachable w'.

(** ** Vocabulary of the properties *)

(** The date a task is sorted by: its due date, today's when it has none. *)
Definition effectiveDate (todayStr : string) (k : Task.t) : string :=
  or_string (Task.dueDate k) todayStr.

(** Two dates in the order a direction asks for. *)
Definition inOrder (o : SortOrder) (a b : string) : Prop :=
  match o with
  | asc => String.leb a b = true
  | desc => String.leb b a = true
  end.

(** The tasks of a list that have a given effective date, in their order. *)
Definition dueOn (todayStr d : string) (l : list Task.t) : list Task.t :=
  filter (fun k => String.eqb (effectiveDate todayStr k) d) l.

(** [l1] is [l2] with some elements left out. *)
Inductive Subseq {A : Type} : list A -> list A -> Prop :=
| subseq_nil : Subseq [] []
| subseq_skip (x : A) (l1 l2 : list A) : Subseq l1 l2 -> Subseq l1 (x :: l2)
| subseq_keep (x : A) (l1 l2 : list A) : Subseq l1 l2 -> Subseq (x :: l1) (x :: l2).

(** The single-element list move of the specification: take the element at
    index [i] out, which shifts the later ones down by one, then put it
    back at index [j]. *)
Definition remove_at {A : Type} (i : nat) (l : list A) : list A :=
  firstn i l ++ skipn (S i) l.

Definition insert_at {A : Type} (j : nat) (x : A) (l : list A) : list A :=
  firstn j l ++ x :: skipn j l.

Definition list_move {A : Type} (i j : nat) (l : list A) : list A :=
  match nth_error l i with
  | Some x => insert_at j x (remove_at i l)
  | None => l
  end.

(** A calendar date written [YYYY-MM-DD]. *)
Definition isDigit (c : ascii) : bool :=
  let n := nat_of_ascii c in (48 <=? n) && (n <=? 57).

Definition isDash (c : ascii) : bool := nat_of_ascii c =? 45.

Definition isISODate (s : string) : bool :=
  match list_ascii_of_string s with
  | [y1; y2; y3; y4; s1; m1; m2; s2; d1; d2] =>
      isDigit y1 && isDigit y2 && isDigit y3 && isDigit y4 && isDash s1 &&
      isDigit m1 && isDigit m2 && isDash s2 && isDigit d1 && isDigit d2
  | _ => false
  end.

(** The fields of a category other than its tasks and its sort order. *)
Definition sameHeader (c c' : Category.t) : Prop :=
  Category.id c' = Category.id c /\
  Category.name c' = Category.name c /\
  Category.isCollapsed c' = Category.isCollapsed c /\
  Category.color c' = Category.color c.

(** A category is expanded unless [isCollapsed] is [true]. *)
Definition expanded (c : Category.t) : bool := negb (truthy_flag (Category.isCollapsed c)).

(** The call finds no object to change: the category a method looks up by
    id is not in the document, or, for [toggleTask], the task is not in that
    category. *)
Definition misses (op : Op) (w : World) : bool :=
  match op with
  | AddTask _ categoryId _ _
  | DeleteTask categoryId _
  | SortCategoryTasks _ categoryId =>
      negb (existsb (hasId categoryId) (categories (settings w)))
  | ToggleTask categoryId taskId _ =>
      match find (hasId categoryId) (categories (settings w)) with
      | Some category => negb (existsb (hasTaskId taskId) (Category.tasks category))
      | None => true
      end
  | _ => false
  end.

(** Identifiers of the categories, and of the tasks of all categories. *)
Definition categoryIds (s : SimpleTasksBlocksSettings) : list string :=
  map Category.id (categories s).

Definition taskIds (s : SimpleTasksBlocksSettings) : list string :=
  flat_map (fun c => map Task.id (Category.tasks c)) (categories s).

Definition UniqueIds (s : SimpleTasksBlocksSettings) : Prop :=
  NoDup (categoryIds s) /\ NoDup (taskIds s).

(** No category without a name and no task without a text. *)
Definition NoEmptyText (s : SimpleTasksBlocksSettings) : Prop :=
  Forall (fun c => Category.name c <> EmptyString /\
                   Forall (fun k => Task.text k <> EmptyString) (Category.tasks c))
         (categories s).

(** The display status of the specification, read off the date badge
    [renderTask] draws: no badge, a badge of class [is-overdue], one of class
    [is-today], or a badge without either class. *)
Inductive Status : Type := overdue | dueToday | scheduled | unscheduled.

Definition status (todayStr : string) (task : Task.t) : Status :=
  match TasksView.dateBadge todayStr task with
  | Some TasksView.is_overdue => overdue
  | Some TasksView.is_today => dueToday
  | Some TasksView.plain => scheduled
  | None => unscheduled
  end.

(** The clock readings a call turns into identifiers of categories, and
    into identifiers of tasks. *)
Definition categoryReadings (op : Op) : list Z :=
  match op with
  | AddCategory nowC _ _ _ _ => [nowC]
  | _ => []
  end.

Definition taskReadings (op : Op) : list Z :=
  match op with
  | AddCategory _ nowT _ firstTaskText _ => if truthy firstTaskText then [nowT] else []
  | AddTask now _ _ _ => [now]
  | _ => []
  end.

(** The string has the character. *)
Fixpoint mentions (c : ascii) (s : string) : bool :=
  match s with
  | EmptyString => false
  | String a r => Ascii.eqb a c || mentions c r
  end.

(** A list that has lost elements or changed their order, at most. *)
Definition Shrinks {A : Type} (l' l : list A) : Prop :=
  (NoDup l -> NoDup l') /\ incl l' l.

(** The identifiers of a document are pairwise different and come from the
    readings [usedC] (categories) and [usedT] (tasks). *)
Definition IdsFrom (usedC usedT : list Z) (s : SimpleTasksBlocksSettings) : Prop :=
  UniqueIds s /\
  (forall i, In i (categoryIds s) -> exists n, In n usedC /\ i = toString n) /\
  (forall i, In i (taskIds s) ->
     exists n, In n usedT /\ (i = toString n \/ i = (toString n ++ "-task")%string)).

(** [formatDate] writes the day first: the format asks for it, or the format
    is automatic and the locale of [window.moment] starts with [fr]. *)
Definition dayFirst (moment : option string) (s : SimpleTasksBlocksSettings) : bool :=
  match dateFormat s with
  | DD_MM_YYYY => true
  | YYYY_MM_DD => false
  | Automatic =>
      match moment with
      | Some locale => String.prefix "fr" locale
      | None => false
      end
  end.

(** Three pieces put together with dashes. *)
Definition dashed (a b c : string) : string := (a ++ "-" ++ b ++ "-" ++ c)%string.

(** The first and the last character of a string. *)
Definition firstChar (s : string) : option ascii :=
  match s with
  | String c _ => Some c
  | EmptyString => None
  end.

Fixpoint lastChar (s : string) : option ascii :=
  match s with
  | EmptyString => None
  | String c EmptyString => Some c
  | String _ r => lastChar r
  end.

(** No white space at either end. *)
Definition trimmed (s : string) : Prop :=
  (forall c, firstChar s = Some c -> isWhiteSpace c = false) /\
  (forall c, lastChar s = Some c -> isWhiteSpace c = false).

(** ** A sample document *)

Definition jan1 : string := "2024-01-01".
Definition jan2 : string := "2024-01-02".

Definition taskA : Task.t := Task.mk "a" "A" false (Some jan1).
Definition taskB : Task.t := Task.mk "b" "B" false None.
Definition taskC : Task.t := Task.mk "c" "C" false (Some jan1).
Definition taskD : Task.t := Task.mk "d" "D" true (Some jan2).

Definition work : Category.t :=
  Category.mk "1" "Work" [taskA; taskB; taskC] (Some false) (Some EmptyString) None.

Definition home : Category.t :=
  Category.mk "2" "Home" [taskD; taskB] (Some true) (Some EmptyString) (Some asc).

Definition sample : World :=
  mkWorld (mkSettings [work; home] false Automatic) true [] 0 [].

(** One category created at the clock reading 1000, then two tasks added to
    it at one and the same reading 1001. *)
Definition same_tick : list Op :=
  [AddCategory 1000 1000 "Work" "a" None;
   AddTask 1001 "1000" "b" None;
   AddTask 1001 "1000" "c" None].

(** The same calls, the second task added one reading later. *)
Definition next_tick : list Op :=
  [AddCategory 1000 1000 "Work" "a" None;
   AddTask 1001 "1000" "b" None;
   AddTask 1002 "1000" "c" None].

(** * Properties *)

(** ** The order on strings *)

Section StringOrder.

Lemma compare_refl (a : string) : String.compare a a = Eq.
Proof. apply String_as_OT.cmp_eq. reflexivity. Qed.

Lemma ltb_irrefl (a : string) : String.ltb a a = false.
Proof. unfold String.ltb. rewrite compare_refl. reflexivity. Qed.

Lemma leb_refl (a : string) : String.leb a a = true.
Proof. unfold String.leb. rewrite compare_refl. reflexivity. Qed.

Lemma ltb_leb (a b : string) : String.ltb a b = true -> String.leb a b = true.
Proof.
  unfold String.ltb, String.leb.
  destruct (String.compare a b); congruence.
Qed.

Lemma ltb_connex (a b : string) :
  String.ltb a b = false -> a <> b -> String.ltb b a = true.
Proof.
  unfold String.ltb. intros H N.
  rewrite (String.compare_antisym b a).
  destruct (String.compare a b) eqn:E; simpl; try reflexivity.
  - apply String.compare_eq_iff in E. contradiction.
  - discriminate.
Qed.

Lemma not_ltb_leb (a b : string) : String.ltb a b = false -> String.leb b a = true.
Proof.
  unfold String.ltb, String.leb. rewrite (String.compare_antisym b a).
  destruct (String.compare a b); simpl; congruence.
Qed.

Lemma ltb_asym (a b : string) : String.ltb a b = true -> String.ltb b a = false.
Proof.
  unfold String.ltb. rewrite (String.compare_antisym b a).
  destruct (String.compare a b); simpl; congruence.
Qed.

Lemma leb_trans (a b c : string) :
  String.leb a b = true -> String.leb b c = true -> String.leb a c = true.
Proof.
  unfold String.leb. intros Hab Hbc.
  destruct (String.compare a b) eqn:Eab; try discriminate;
    destruct (String.compare b c) eqn:Ebc; try discriminate.
  - apply String.compare_eq_iff in Eab. subst b. rewrite Ebc. reflexivity.
  - apply String.compare_eq_iff in Eab. subst b. rewrite Ebc. reflexivity.
  - apply String.compare_eq_iff in Ebc. subst c. rewrite Eab. reflexivity.
  - assert (L : String.compare a c = Lt).
    { apply String_as_OT.cmp_lt.
      apply String_as_OT.lt_trans with b; apply String_as_OT.cmp_lt; assumption. }
    rewrite L. reflexivity.
Qed.

Lemma inOrder_refl (o : SortOrder) (a : string) : inOrder o a a.
Proof. destruct o; simpl; apply leb_refl. Qed.

Lemma inOrder_trans (o : SortOrder) (a b c : string) :
  inOrder o a b -> inOrder o b c -> inOrder o a c.
Proof.
  destruct o; simpl; intros H1 H2.
  - apply leb_trans with b; assumption.
  - apply leb_trans with b; assumption.
Qed.

Lemma truthy_nonempty (s : string) : truthy s = true <-> s <> EmptyString.
Proof.
  unfold truthy. rewrite negb_true_iff. apply String.eqb_neq.
Qed.

End StringOrder.

(** ** [Array.prototype.sort] with the comparator of [sortCategoryTasks] *)

Section Sorting.

Variable todayStr : string.
Variable newOrder : SortOrder.

Let cmp := TasksView.compareTasks newOrder todayStr.
Let eff := effectiveDate todayStr.

(** The comparator is positive exactly when its first argument has to come
    after its second one in the direction asked for, the dates being
    different. *)
Lemma compareTasks_pos (a b : Task.t) :
  (0 <? cmp a b)%Z = true ->
  eff a <> eff b /\ inOrder newOrder (eff b) (eff a).
Proof.
  unfold cmp, TasksView.compareTasks.
  fold (effectiveDate todayStr a). fold (effectiveDate todayStr b). fold eff.
  destruct (String.eqb (eff a) (eff b)) eqn:E; [discriminate|].
  apply String.eqb_neq in E. intros H. split; [assumption|].
  destruct newOrder; simpl.
  - destruct (String.ltb (eff a) (eff b)) eqn:L; [discriminate|].
    apply not_ltb_leb. assumption.
  - destruct (String.ltb (eff b) (eff a)) eqn:L; [discriminate|].
    apply not_ltb_leb. assumption.
Qed.

Lemma compareTasks_nonpos (a b : Task.t) :
  (0 <? cmp a b)%Z = false -> inOrder newOrder (eff a) (eff b).
Proof.
  unfold cmp, TasksView.compareTasks.
  fold (effectiveDate todayStr a). fold (effectiveDate todayStr b). fold eff.
  destruct (String.eqb (eff a) (eff b)) eqn:E.
  - apply String.eqb_eq in E. rewrite E. intros _. apply inOrder_refl.
  - destruct newOrder; simpl.
    + destruct (String.ltb (eff a) (eff b)) eqn:L; [|discriminate].
      intros _. apply ltb_leb. assumption.
    + destruct (String.ltb (eff b) (eff a)) eqn:L; [|discriminate].
      intros _. apply ltb_leb. assumption.
Qed.

(** The comparator is consistent, which is what [sort] asks of it to give
    a sorted array: it is zero on equal dates only, and swapping the
    arguments changes its sign. *)
Lemma compareTasks_zero (a b : Task.t) : cmp a b = 0%Z <-> eff a = eff b.
Proof.
  unfold cmp, TasksView.compareTasks.
  fold (effectiveDate todayStr a). fold (effectiveDate todayStr b). fold eff.
  destruct (String.eqb (eff a) (eff b)) eqn:E.
  - apply String.eqb_eq in E. tauto.
  - apply String.eqb_neq in E.
    destruct newOrder;
      match goal with |- context [String.ltb ?x ?y] => destruct (String.ltb x y) end;
      split; intros H; try discriminate; contradiction.
Qed.

Lemma compareTasks_antisym (a b : Task.t) : cmp a b = (- cmp b a)%Z.
Proof.
  unfold cmp, TasksView.compareTasks.
  fold (effectiveDate todayStr a). fold (effectiveDate todayStr b). fold eff.
  rewrite (String.eqb_sym (eff b) (eff a)).
  destruct (String.eqb (eff a) (eff b)) eqn:E; [reflexivity|].
  apply String.eqb_neq in E.
  destruct newOrder.
  - destruct (String.ltb (eff a) (eff b)) eqn:L.
    + rewrite (ltb_asym _ _ L). reflexivity.
    + rewrite (ltb_connex _ _ L E). reflexivity.
  - destruct (String.ltb (eff b) (eff a)) eqn:L.
    + rewrite (ltb_asym _ _ L). reflexivity.
    + rewrite (ltb_connex (eff b) (eff a) L); [reflexivity|congruence].
Qed.

Lemma sort_insert_perm (x : Task.t) (l : list Task.t) :
  Permutation (x :: l) (sort_insert cmp x l).
Proof.
  induction l as [|y r IH]; simpl.
  - apply Permutation_refl.
  - destruct (0 <? cmp x y)%Z.
    + apply perm_trans with (y :: x :: r).
      * apply perm_swap.
      * apply perm_skip. exact IH.
    + apply Permutation_refl.
Qed.

Lemma Array_sort_perm (l : list Task.t) : Permutation l (Array_sort cmp l).
Proof.
  induction l as [|x r IH]; simpl.
  - apply perm_nil.
  - apply perm_trans with (x :: Array_sort cmp r).
    + apply perm_skip. exact IH.
    + apply sort_insert_perm.
Qed.

Let R (a b : Task.t) : Prop := inOrder newOrder (eff a) (eff b).

Lemma sort_insert_sorted (x : Task.t) (l : list Task.t) :
  StronglySorted R l -> StronglySorted R (sort_insert cmp x l).
Proof.
  induction l as [|y r IH]; simpl; intros S.
  - constructor; constructor.
  - inversion S as [|y' r' Sr Fy]; subst.
    destruct (0 <? cmp x y)%Z eqn:T.
    + constructor.
      * apply IH. assumption.
      * apply Permutation_Forall with (x :: r).
        -- apply sort_insert_perm.
        -- constructor; [|assumption].
           apply compareTasks_pos in T. apply T.
    + apply compareTasks_nonpos in T.
      constructor; [assumption|].
      constructor; [exact T|].
      eapply Forall_impl; [|exact Fy].
      intros z Hz. unfold R in *. eapply inOrder_trans; eassumption.
Qed.

Lemma Array_sort_sorted (l : list Task.t) : StronglySorted R (Array_sort cmp l).
Proof.
  induction l as [|x r IH]; simpl.
  - constructor.
  - apply sort_insert_sorted. exact IH.
Qed.

Lemma sort_insert_stable (d : string) (x : Task.t) (l : list Task.t) :
  dueOn todayStr d (sort_insert cmp x l) = dueOn todayStr d (x :: l).
Proof.
  induction l as [|y r IH]; simpl; [reflexivity|].
  destruct (0 <? cmp x y)%Z eqn:T; [|reflexivity].
  apply compareTasks_pos in T. destruct T as [N _]. unfold eff in N.
  unfold dueOn in *. simpl in *. rewrite IH.
  destruct (String.eqb (effectiveDate todayStr x) d) eqn:Ex;
    destruct (String.eqb (effectiveDate todayStr y) d) eqn:Ey; try reflexivity.
  apply String.eqb_eq in Ex, Ey. congruence.
Qed.

Lemma Array_sort_stable (d : string) (l : list Task.t) :
  dueOn todayStr d (Array_sort cmp l) = dueOn todayStr d l.
Proof.
  induction l as [|x r IH]; simpl; [reflexivity|].
  rewrite sort_insert_stable. unfold dueOn in *. simpl. rewrite IH. reflexivity.
Qed.

End Sorting.

(** ** Writing to the object [find] returned *)

Section UpdateFirst.

Context {A : Type}.
Variable p : A -> bool.
Variable f : A -> A.

Lemma update_first_split (l : list A) (c : A) :
  find p l = Some c ->
  exists pre post,
    l = pre ++ c :: post /\
    Forall (fun x => p x = false) pre /\
    p c = true /\
    update_first p f l = pre ++ f c :: post.
Proof.
  induction l as [|x r IH]; simpl; [discriminate|].
  destruct (p x) eqn:Px.
  - intros H. injection H as H. subst x.
    exists [], r. repeat split; auto.
  - intros H. destruct (IH H) as (pre & post & E & F & Pc & U).
    exists (x :: pre), post. subst r. rewrite U. repeat split; auto.
Qed.

Lemma find_update_first (l : list A) (c : A) :
  (forall x, p (f x) = p x) ->
  find p l = Some c -> find p (update_first p f l) = Some (f c).
Proof.
  intros K. induction l as [|x r IH]; simpl; [discriminate|].
  destruct (p x) eqn:Px; simpl.
  - intros H. injection H as H. subst x. rewrite K, Px. reflexivity.
  - rewrite Px. exact IH.
Qed.

Lemma find_none_existsb (l : list A) : find p l = None <-> existsb p l = false.
Proof.
  induction l as [|x r IH]; simpl; [tauto|].
  destruct (p x); simpl; [split; discriminate|exact IH].
Qed.

End UpdateFirst.

(** ** [sortCategoryTasks] *)

Lemma hasId_sorted_category (todayStr categoryId : string) (c : Category.t) :
  hasId categoryId (TasksView.sorted_category todayStr c) = hasId categoryId c.
Proof. reflexivity. Qed.

(** The effective date is the due date of a task that has one (a date the
    date input was cleared to is the empty string, and counts as none). *)
Lemma effectiveDate_cases (todayStr : string) (k : Task.t) :
  (forall d, Task.dueDate k = Some d -> d <> EmptyString ->
             effectiveDate todayStr k = d) /\
  (Task.dueDate k = None -> effectiveDate todayStr k = todayStr).
Proof.
  unfold effectiveDate, or_string. split.
  - intros d -> N. apply truthy_nonempty in N. rewrite N. reflexivity.
  - intros ->. reflexivity.
Qed.

(** The id of a category of the document is found, and the category [find]
    returns has that id. *)
Lemma find_hasId_present (c : Category.t) (cs : list Category.t) :
  In c cs ->
  exists category,
    find (hasId (Category.id c)) cs = Some category /\
    In category cs /\
    Category.id category = Category.id c.
Proof.
  intros H.
  destruct (find (hasId (Category.id c)) cs) as [category|] eqn:F.
  - exists category. split; [reflexivity|].
    apply find_some in F. destruct F as [Hin Hid].
    split; [exact Hin|]. apply String.eqb_eq. exact Hid.
  - exfalso. apply (find_none _ _ F) in H.
    unfold hasId in H. rewrite String.eqb_refl in H. discriminate.
Qed.

(** C1.  [sortCategoryTasks] on the id of a category of the document (the
    first one with that id is the one [find] returns) flips the direction,
    [desc] being the direction a category that was never sorted is taken to
    have had, so that its first sort is ascending.  The tasks of the category
    become a stable sort of what they were: the same tasks, in the order of
    the new direction by their effective date (the due date, today's date
    when there is none) compared as strings, and those with one and the same
    effective date in the order they had.  The new direction is stored in
    [lastSortOrder], and the document with both changes is what is saved. *)
Theorem sortCategoryTasks_stable_sort
    (todayStr categoryId : string) (w : World) (category : Category.t) :
  find (hasId categoryId) (categories (settings w)) = Some category ->
  let w' := TasksView.sortCategoryTasks todayStr categoryId w in
  let newOrder :=
    match Category.lastSortOrder category with
    | Some asc => desc
    | Some desc => asc
    | None => asc
    end in
  exists category',
    find (hasId categoryId) (categories (settings w')) = Some category' /\
    Category.lastSortOrder category' = Some newOrder /\
    Permutation (Category.tasks category) (Category.tasks category') /\
    StronglySorted
      (fun a b => inOrder newOrder (effectiveDate todayStr a) (effectiveDate todayStr b))
      (Category.tasks category') /\
    (forall d, dueOn todayStr d (Category.tasks category')
               = dueOn todayStr d (Category.tasks category)) /\
    (forall k, Task.dueDate k = None -> effectiveDate todayStr k = todayStr) /\
    (forall k d, Task.dueDate k = Some d -> d <> EmptyString ->
                 effectiveDate todayStr k = d) /\
    saved w' = settings w' :: saved w.
Proof.
  intros Hfind w' newOrder.
  assert (Enew : newOrder = TasksView.flip (TasksView.currentOrder category)).
  { unfold newOrder, TasksView.flip, TasksView.currentOrder.
    destruct (Category.lastSortOrder category) as [[|]|]; reflexivity. }
  exists (TasksView.sorted_category todayStr category).
  unfold w', TasksView.sortCategoryTasks. rewrite Hfind. cbn [settings Notice saved].
  split.
  { unfold Plugin.saveSettings, with_categories, set_categories. cbn.
    apply find_update_first; [|assumption].
    intros x. apply hasId_sorted_category. }
  unfold TasksView.sorted_category. cbn. rewrite <- Enew.
  repeat split.
  - apply Array_sort_perm.
  - apply Array_sort_sorted.
  - intros d. apply Array_sort_stable.
  - intros k. apply effectiveDate_cases.
  - intros k d. apply effectiveDate_cases.
Qed.

(** C10.  Besides the order of the tasks of the category it sorts and the
    [lastSortOrder] of that category, [sortCategoryTasks] changes nothing in
    the document: the category keeps its place, its id, name, collapsed flag
    and colour; its tasks are the tasks it had, each with the fields it had
    (a permutation of the same records, so a task without a date still has
    none); the categories before and after it, and the two global settings,
    are what they were. *)
Theorem sortCategoryTasks_frame
    (todayStr categoryId : string) (w : World) (category : Category.t) :
  find (hasId categoryId) (categories (settings w)) = Some category ->
  let s' := settings (TasksView.sortCategoryTasks todayStr categoryId w) in
  confirmTaskDeletion s' = confirmTaskDeletion (settings w) /\
  dateFormat s' = dateFormat (settings w) /\
  exists pre post category',
    categories (settings w) = pre ++ category :: post /\
    categories s' = pre ++ category' :: post /\
    sameHeader category category' /\
    Permutation (Category.tasks category) (Category.tasks category') /\
    (forall k, In k (Category.tasks category') <-> In k (Category.tasks category)) /\
    length (Category.tasks category') = length (Category.tasks category).
Proof.
  intros Hfind s'. unfold s', TasksView.sortCategoryTasks. rewrite Hfind.
  cbn. split; [reflexivity|]. split; [reflexivity|].
  destruct (update_first_split (hasId categoryId)
              (TasksView.sorted_category todayStr) _ _ Hfind)
    as (pre & post & E & _ & _ & U).
  exists pre, post, (TasksView.sorted_category todayStr category).
  split; [exact E|]. split; [exact U|].
  assert (P : Permutation (Category.tasks category)
                (Category.tasks (TasksView.sorted_category todayStr category))).
  { unfold TasksView.sorted_category. cbn. apply Array_sort_perm. }
  split; [|split; [exact P|split]].
  - unfold sameHeader, TasksView.sorted_category. cbn. repeat split.
  - intros k. split; intros H.
    + apply Permutation_in with (1 := Permutation_sym P). assumption.
    + apply Permutation_in with (1 := P). assumption.
  - symmetry. apply Permutation_length. exact P.
Qed.

Lemma sortCategoryTasks_stable_sort_witness :
  find (hasId "1") (categories (settings sample)) = Some work /\
  exists category',
    find (hasId "1")
      (categories (settings (TasksView.sortCategoryTasks jan2 "1" sample)))
      = Some category' /\
    Category.lastSortOrder category' = Some asc /\
    Permutation (Category.tasks work) (Category.tasks category') /\
    StronglySorted
      (fun a b => inOrder asc (effectiveDate jan2 a) (effectiveDate jan2 b))
      (Category.tasks category') /\
    (forall d, dueOn jan2 d (Category.tasks category')
               = dueOn jan2 d (Category.tasks work)) /\
    (forall k, Task.dueDate k = None -> effectiveDate jan2 k = jan2) /\
    (forall k d, Task.dueDate k = Some d -> d <> EmptyString ->
                 effectiveDate jan2 k = d) /\
    saved (TasksView.sortCategoryTasks jan2 "1" sample)
      = settings (TasksView.sortCategoryTasks jan2 "1" sample) :: saved sample.
Proof.
  split.
  - reflexivity.
  - apply (sortCategoryTasks_stable_sort jan2 "1" sample work). reflexivity.
Defined.

Lemma sortCategoryTasks_frame_witness :
  find (hasId "2") (categories (settings sample)) = Some home /\
  exists pre post category',
    categories (settings sample) = pre ++ home :: post /\
    categories (settings (TasksView.sortCategoryTasks jan2 "2" sample))
      = pre ++ category' :: post /\
    sameHeader home category' /\
    Permutation (Category.tasks home) (Category.tasks category').
Proof.
  split.
  - reflexivity.
  - destruct (sortCategoryTasks_frame jan2 "2" sample home eq_refl)
      as (_ & _ & pre & post & c' & E1 & E2 & H & P & _).
    exists pre, post, c'. repeat split; try assumption; apply H.
Defined.

(** The scenario of the specification: sorted ascending on 2024-01-02, the
    tasks A and C, both due on 2024-01-01, come first in their order, then B,
    which has no date. *)
Example sort_scenario :
  map Task.id
    (flat_map Category.tasks
       (categories (settings (TasksView.sortCategoryTasks jan2 "1" sample))))
  = ["a"; "c"; "b"; "d"; "b"]%string.
Proof. reflexivity. Qed.

(** ** The date badge *)

Lemma isISODate_truthy (d : string) : isISODate d = true -> truthy d = true.
Proof.
  destruct d as [|c r]; [discriminate|reflexivity].
Qed.

Lemma status_dated (todayStr d : string) (task : Task.t) :
  Task.dueDate task = Some d -> truthy d = true ->
  status todayStr task =
    if String.ltb d todayStr then overdue
    else if String.eqb d todayStr then dueToday else scheduled.
Proof.
  intros E T. unfold status, TasksView.dateBadge. rewrite E, T.
  destruct (String.ltb d todayStr); [reflexivity|].
  destruct (String.eqb d todayStr); reflexivity.
Qed.

(** C5.  With today's date and the due date of a task both written
    YYYY-MM-DD, the status shown for the task is overdue exactly when the due
    date is below today's date as a string, due today exactly when the two
    are equal, and scheduled in every other case.  A task without a due date
    is unscheduled: [renderTask] draws no badge for it.  The badge is a
    function of the task and of today's date; computing it writes to
    neither. *)
Theorem status_by_string_comparison (todayStr : string) (task : Task.t) :
  isISODate todayStr = true ->
  (forall d, Task.dueDate task = Some d -> isISODate d = true ->
     (status todayStr task = overdue <-> String.ltb d todayStr = true) /\
     (status todayStr task = dueToday <-> d = todayStr) /\
     (status todayStr task = scheduled <->
        String.ltb d todayStr = false /\ d <> todayStr) /\
     status todayStr task <> unscheduled) /\
  (Task.dueDate task = None ->
     status todayStr task = unscheduled /\
     TasksView.dateBadge todayStr task = None).
Proof.
  intros _. split.
  - intros d E I. rewrite (status_dated todayStr d task E (isISODate_truthy d I)).
    destruct (String.ltb d todayStr) eqn:L.
    + split; [|split; [|split]].
      * split; reflexivity.
      * split; [discriminate|].
        intros ->. rewrite ltb_irrefl in L. discriminate.
      * split; [discriminate|]. intros [H _]. discriminate.
      * discriminate.
    + destruct (String.eqb d todayStr) eqn:Q.
      * apply String.eqb_eq in Q.
        split; [|split; [|split]].
        -- split; discriminate.
        -- split; intros _; [assumption|reflexivity].
        -- split; [discriminate|]. intros [_ N]. contradiction.
        -- discriminate.
      * apply String.eqb_neq in Q.
        split; [|split; [|split]].
        -- split; discriminate.
        -- split; [discriminate|]. intros H. contradiction.
        -- split; intros _; [split; [reflexivity|assumption]|reflexivity].
        -- discriminate.
  - intros E. unfold status, TasksView.dateBadge. rewrite E. split; reflexivity.
Qed.

Lemma status_by_string_comparison_witness :
  isISODate jan2 = true /\
  Task.dueDate taskA = Some jan1 /\
  isISODate jan1 = true /\
  status jan2 taskA = overdue /\
  Task.dueDate taskB = None /\
  status jan2 taskB = unscheduled.
Proof.
  destruct (status_by_string_comparison jan2 taskA eq_refl) as [HA _].
  destruct (HA jan1 eq_refl eq_refl) as [[_ Hov] _].
  destruct (status_by_string_comparison jan2 taskB eq_refl) as [_ HB].
  destruct (HB eq_refl) as [Hun _].
  split; [reflexivity|]. split; [reflexivity|]. split; [reflexivity|].
  split; [exact (Hov eq_refl)|]. split; [reflexivity|exact Hun].
Defined.

(** ** [cleanCompletedTasks] *)

Section Filter.

Context {A : Type}.
Variable p : A -> bool.

Lemma filter_Subseq (l : list A) : Subseq (filter p l) l.
Proof.
  induction l as [|x r IH]; simpl.
  - constructor.
  - destruct (p x); constructor; exact IH.
Qed.

Lemma filter_split_length (l : list A) :
  length (filter (fun x => negb (p x)) l) + length (filter p l) = length l.
Proof.
  induction l as [|x r IH]; simpl; [reflexivity|].
  destruct (p x); simpl; lia.
Qed.

End Filter.

(** C6.  [cleanCompletedTasks] keeps every category, at its place and with
    the fields it had; the tasks left in a category are those of its tasks
    that are not completed, all of them and no other, in the order they had;
    the settings are not touched.  There is one [saveData], of the cleaned
    document, and one refresh of the view (a view is open whenever one of its
    methods runs). *)
Theorem cleanCompletedTasks_removes_completed (w : World) :
  view w = true ->
  let w' := TasksView.cleanCompletedTasks w in
  length (categories (settings w')) = length (categories (settings w)) /\
  (forall i c, nth_error (categories (settings w)) i = Some c ->
     exists c',
       nth_error (categories (settings w')) i = Some c' /\
       sameHeader c c' /\
       Category.lastSortOrder c' = Category.lastSortOrder c /\
       Subseq (Category.tasks c') (Category.tasks c) /\
       (forall k, In k (Category.tasks c') <->
                  In k (Category.tasks c) /\ Task.completed k = false) /\
       length (Category.tasks c') + length (filter Task.completed (Category.tasks c))
         = length (Category.tasks c)) /\
  confirmTaskDeletion (settings w') = confirmTaskDeletion (settings w) /\
  dateFormat (settings w') = dateFormat (settings w) /\
  saved w' = settings w' :: saved w /\
  refreshes w' = S (refreshes w).
Proof.
  intros V w'. unfold w', TasksView.cleanCompletedTasks. cbn. rewrite V.
  split; [apply length_map|].
  split; [|repeat split].
  intros i c E. rewrite nth_error_map, E. cbn.
  eexists. split; [reflexivity|]. cbn.
  split; [repeat split|]. split; [reflexivity|].
  split; [apply filter_Subseq|]. split.
  - intros k. rewrite filter_In. rewrite negb_true_iff. tauto.
  - apply filter_split_length.
Qed.

Lemma cleanCompletedTasks_removes_completed_witness :
  view sample = true /\
  map (fun c => map Task.id (Category.tasks c))
    (categories (settings (TasksView.cleanCompletedTasks sample)))
    = [["a"; "b"; "c"]; ["b"]]%string /\
  refreshes (TasksView.cleanCompletedTasks sample) = S (refreshes sample).
Proof.
  split; [reflexivity|]. split; [reflexivity|].
  apply (cleanCompletedTasks_removes_completed sample eq_refl).
Defined.

(** ** [toggleAllCategories] *)

(** C7.  [toggleAllCategories] gives all categories one collapsed flag: if a
    category is expanded before the call, every category is collapsed after
    it; if none is, every category is expanded after it.  In both cases any
    two categories have the same flag afterwards, whatever flags they had,
    and nothing else of a category changes. *)
Theorem toggleAllCategories_single_target (w : World) :
  let cs := categories (settings w) in
  let cs' := categories (settings (TasksView.toggleAllCategories w)) in
  ((exists c, In c cs /\ expanded c = true) ->
     forall c', In c' cs' -> Category.isCollapsed c' = Some true) /\
  ((forall c, In c cs -> expanded c = false) ->
     forall c', In c' cs' -> Category.isCollapsed c' = Some false) /\
  (forall c1 c2, In c1 cs' -> In c2 cs' ->
     Category.isCollapsed c1 = Category.isCollapsed c2) /\
  length cs' = length cs /\
  (forall i c, nth_error cs i = Some c ->
     exists c', nth_error cs' i = Some c' /\
       Category.id c' = Category.id c /\ Category.name c' = Category.name c /\
       Category.tasks c' = Category.tasks c /\ Category.color c' = Category.color c /\
       Category.lastSortOrder c' = Category.lastSortOrder c).
Proof.
  intros cs cs'. unfold cs', TasksView.toggleAllCategories. cbn. fold cs.
  change (fun c => negb (truthy_flag (Category.isCollapsed c))) with expanded.
  repeat split.
  - intros (c & Hin & Hc) c' Hin'.
    apply in_map_iff in Hin'. destruct Hin' as (c0 & <- & _). cbn.
    replace (existsb expanded cs) with true; [reflexivity|].
    symmetry. apply existsb_exists. exists c. split; assumption.
  - intros Hall c' Hin'.
    apply in_map_iff in Hin'. destruct Hin' as (c0 & <- & _). cbn.
    replace (existsb expanded cs) with false; [reflexivity|].
    symmetry. apply not_true_is_false. intros H.
    apply existsb_exists in H. destruct H as (c & Hin & Hc).
    rewrite (Hall c Hin) in Hc. discriminate.
  - intros c1 c2 H1 H2.
    apply in_map_iff in H1, H2.
    destruct H1 as (x1 & <- & _). destruct H2 as (x2 & <- & _). reflexivity.
  - apply length_map.
  - intros i c E. rewrite nth_error_map, E. cbn.
    eexists. split; [reflexivity|]. cbn. repeat split.
Qed.

Lemma toggleAllCategories_single_target_witness :
  (exists c, In c (categories (settings sample)) /\ expanded c = true) /\
  (forall c', In c' (categories (settings (TasksView.toggleAllCategories sample))) ->
     Category.isCollapsed c' = Some true) /\
  (forall c, In c (categories (settings (with_categories [home] sample))) ->
     expanded c = false) /\
  (forall c',
     In c' (categories
              (settings (TasksView.toggleAllCategories (with_categories [home] sample)))) ->
     Category.isCollapsed c' = Some false).
Proof.
  assert (H : exists c, In c (categories (settings sample)) /\ expanded c = true).
  { exists work. split; [left; reflexivity|reflexivity]. }
  assert (G : forall c, In c (categories (settings (with_categories [home] sample))) ->
                        expanded c = false).
  { intros c [<-|[]]. reflexivity. }
  split; [exact H|].
  split; [exact (proj1 (toggleAllCategories_single_target sample) H)|].
  split; [exact G|].
  exact (proj1 (proj2 (toggleAllCategories_single_target
                         (with_categories [home] sample))) G).
Defined.

(** ** [splice] and the move of one element *)

Section Move.

Context {A : Type}.

Lemma remove_at_middle (a b : list A) (x : A) :
  remove_at (length a) (a ++ x :: b) = a ++ b.
Proof.
  unfold remove_at. induction a as [|y a IH]; simpl; [reflexivity|].
  simpl in IH. rewrite IH. reflexivity.
Qed.

Lemma insert_at_middle (a b : list A) (x : A) :
  insert_at (length a) x (a ++ b) = a ++ x :: b.
Proof.
  unfold insert_at. induction a as [|y a IH]; simpl.
  - destruct b; reflexivity.
  - rewrite IH. reflexivity.
Qed.

Lemma nth_error_middle (a b : list A) (x : A) :
  nth_error (a ++ x :: b) (length a) = Some x.
Proof.
  induction a as [|y a IH]; simpl; [reflexivity|exact IH].
Qed.

Lemma length_remove_at (i : nat) (l : list A) :
  i < length l -> S (length (remove_at i l)) = length l.
Proof.
  intros H. unfold remove_at.
  rewrite length_app, length_firstn, length_skipn. lia.
Qed.

Lemma length_insert_at (j : nat) (x : A) (l : list A) :
  length (insert_at j x l) = S (length l).
Proof.
  unfold insert_at. rewrite length_app. simpl.
  rewrite length_firstn, length_skipn. lia.
Qed.

Lemma length_list_move (i j : nat) (l : list A) :
  i < length l -> length (list_move i j l) = length l.
Proof.
  intros H. unfold list_move.
  destruct (nth_error l i) eqn:E; [|reflexivity].
  rewrite length_insert_at. apply length_remove_at. exact H.
Qed.

Lemma list_move_same (i : nat) (l : list A) : list_move i i l = l.
Proof.
  unfold list_move. destruct (nth_error l i) as [x|] eqn:E; [|reflexivity].
  apply nth_error_split in E. destruct E as (a & b & -> & <-).
  rewrite remove_at_middle. apply insert_at_middle.
Qed.

(** Moving an element from [i] to [j] and then the element at [j] to [i]
    gives the list back. *)
Lemma list_move_back (i j : nat) (l : list A) :
  i < length l -> j < length l -> list_move j i (list_move i j l) = l.
Proof.
  intros Hi Hj. unfold list_move at 2.
  destruct (nth_error l i) as [x|] eqn:E.
  2:{ apply nth_error_None in E. lia. }
  apply nth_error_split in E. destruct E as (a & b & -> & <-).
  rewrite remove_at_middle.
  rewrite length_app in Hj. simpl in Hj.
  assert (Hlen : length (firstn j (a ++ b)) = j).
  { rewrite length_firstn, length_app. lia. }
  assert (Hcd : firstn j (a ++ b) ++ skipn j (a ++ b) = a ++ b)
    by apply firstn_skipn.
  unfold insert_at.
  remember (firstn j (a ++ b)) as c eqn:Ec.
  remember (skipn j (a ++ b)) as d eqn:Ed.
  clear Ec Ed Hj. subst j.
  unfold list_move. rewrite nth_error_middle, remove_at_middle, Hcd.
  apply insert_at_middle.
Qed.

Lemma defined_map_Some (l : list A) : defined (map Some l) = Some l.
Proof.
  induction l as [|x r IH]; simpl; [reflexivity|]. rewrite IH. reflexivity.
Qed.

Lemma actualStart_in_bounds (i n : nat) : i <= n -> actualStart (Z.of_nat i) n = i.
Proof.
  intros H. unfold actualStart.
  destruct (Z.ltb_spec (Z.of_nat i) 0); [lia|].
  rewrite Z.min_l by lia. apply Nat2Z.id.
Qed.

Lemma hd_error_firstn_skipn (i : nat) (l : list A) :
  hd_error (firstn 1 (skipn i l)) = nth_error l i.
Proof.
  revert i. induction l as [|x r IH]; intros [|i]; simpl; try reflexivity.
  apply IH.
Qed.

(** For indices inside the array the two [splice] calls are the move of the
    specification, and no [undefined] gets in. *)
Lemma reorder_slots_in_bounds (i j : nat) (l : list A) :
  i < length l -> j < length l ->
  TasksView.reorder_slots (Z.of_nat i) (Z.of_nat j) l = map Some (list_move i j l).
Proof.
  intros Hi Hj. unfold TasksView.reorder_slots, splice.
  rewrite actualStart_in_bounds by lia.
  replace (Nat.min 1 (length l - i)) with 1 by lia.
  rewrite hd_error_firstn_skipn. simpl app.
  replace (i + 1) with (S i) by lia. fold (remove_at i l).
  unfold list_move.
  destruct (nth_error l i) as [x|] eqn:E.
  2:{ apply nth_error_None in E. lia. }
  cbn [snd]. rewrite length_map.
  assert (Hr : S (length (remove_at i l)) = length l) by (apply length_remove_at; exact Hi).
  rewrite actualStart_in_bounds by lia.
  rewrite Nat.add_0_r.
  unfold insert_at. rewrite map_app. simpl.
  rewrite firstn_map, skipn_map. reflexivity.
Qed.

End Move.

(** ** [reorderCategories] *)

Lemma reorderCategories_in_bounds (i j : nat) (w : World) :
  i < length (categories (settings w)) ->
  j < length (categories (settings w)) ->
  TasksView.reorderCategories (Z.of_nat i) (Z.of_nat j) w
  = Reordered (Plugin.saveSettings
                 (with_categories (list_move i j (categories (settings w))) w)).
Proof.
  intros Hi Hj. unfold TasksView.reorderCategories.
  rewrite reorder_slots_in_bounds by assumption.
  rewrite defined_map_Some. reflexivity.
Qed.

Lemma list_move_lands (A : Type) (i j : nat) (l : list A) :
  i < length l -> j < length l ->
  nth_error (list_move i j l) j = nth_error l i /\
  remove_at j (list_move i j l) = remove_at i l.
Proof.
  intros Hi Hj. unfold list_move.
  destruct (nth_error l i) as [x|] eqn:E.
  2:{ apply nth_error_None in E. lia. }
  apply nth_error_split in E. destruct E as (a & b & -> & <-).
  rewrite remove_at_middle.
  rewrite length_app in Hj. simpl in Hj.
  assert (Hlen : length (firstn j (a ++ b)) = j).
  { rewrite length_firstn, length_app. lia. }
  assert (Hcd : firstn j (a ++ b) ++ skipn j (a ++ b) = a ++ b)
    by apply firstn_skipn.
  unfold insert_at.
  remember (firstn j (a ++ b)) as c eqn:Ec.
  remember (skipn j (a ++ b)) as d eqn:Ed.
  clear Ec Ed Hj. subst j.
  rewrite nth_error_middle, remove_at_middle. split; [reflexivity|exact Hcd].
Qed.

(** C4, as the code has it.  For two indices inside the category array,
    [reorderCategories] is the move of one element: the category that was at
    [fromIndex] is at [toIndex] afterwards and the other categories keep
    their order; with [fromIndex = toIndex] the array is what it was.  In
    both cases the document is saved, the settings untouched.
    [reorderCategories] itself checks no index; the drop handler, which
    calls it, does not call it when the two indices are equal. *)
Theorem reorderCategories_moves_in_bounds (fromIndex toIndex : Z) (w : World) :
  (0 <= fromIndex < Z.of_nat (length (categories (settings w))))%Z ->
  (0 <= toIndex < Z.of_nat (length (categories (settings w))))%Z ->
  exists w',
    TasksView.reorderCategories fromIndex toIndex w = Reordered w' /\
    categories (settings w')
      = list_move (Z.to_nat fromIndex) (Z.to_nat toIndex) (categories (settings w)) /\
    nth_error (categories (settings w')) (Z.to_nat toIndex)
      = nth_error (categories (settings w)) (Z.to_nat fromIndex) /\
    remove_at (Z.to_nat toIndex) (categories (settings w'))
      = remove_at (Z.to_nat fromIndex) (categories (settings w)) /\
    (fromIndex = toIndex -> categories (settings w') = categories (settings w)) /\
    confirmTaskDeletion (settings w') = confirmTaskDeletion (settings w) /\
    dateFormat (settings w') = dateFormat (settings w) /\
    saved w' = settings w' :: saved w /\
    TasksView.drop (Some fromIndex) fromIndex w = Reordered w.
Proof.
  intros Hf Ht.
  assert (Hi : Z.to_nat fromIndex < length (categories (settings w))) by lia.
  assert (Hj : Z.to_nat toIndex < length (categories (settings w))) by lia.
  pose proof (reorderCategories_in_bounds _ _ w Hi Hj) as R.
  rewrite !Z2Nat.id in R by lia.
  eexists. split; [exact R|]. cbn.
  destruct (list_move_lands _ _ _ _ Hi Hj) as [L1 L2].
  repeat split; try assumption.
  - intros ->. apply list_move_same.
  - unfold TasksView.drop. rewrite Z.eqb_refl. reflexivity.
Qed.

Lemma reorderCategories_moves_in_bounds_witness :
  (0 <= 0 < Z.of_nat (length (categories (settings sample))))%Z /\
  (0 <= 1 < Z.of_nat (length (categories (settings sample))))%Z /\
  (exists w',
     TasksView.reorderCategories 0 1 sample = Reordered w' /\
     categories (settings w') = list_move 0 1 (categories (settings sample))) /\
  (exists w',
     TasksView.reorderCategories 0 0 sample = Reordered w' /\
     categories (settings w') = categories (settings sample)).
Proof.
  assert (H0 : (0 <= 0 < Z.of_nat (length (categories (settings sample))))%Z)
    by (simpl; lia).
  assert (H1 : (0 <= 1 < Z.of_nat (length (categories (settings sample))))%Z)
    by (simpl; lia).
  split; [exact H0|]. split; [exact H1|]. split.
  - destruct (reorderCategories_moves_in_bounds 0 1 sample H0 H1) as (w' & R & M & _).
    exists w'. split; [exact R|exact M].
  - destruct (reorderCategories_moves_in_bounds 0 0 sample H0 H0)
      as (w' & R & _ & _ & _ & S & _).
    exists w'. split; [exact R|exact (S eq_refl)].
Defined.

(** C4, as the specification has it, fails.  An index outside [0, n) is not
    refused: [-1] is taken from the end of the array and the document
    changes; with [fromIndex = n] nothing is removed and [undefined] is put
    into the array.  And a call with equal indices saves the document and
    refreshes the view. *)
Lemma reorderCategories_IndexError_counterexample :
  TasksView.reorderCategories (-1) 0 sample
    = Reordered (Plugin.saveSettings (with_categories [home; work] sample)) /\
  TasksView.reorderCategories 2 0 sample
    = UndefinedInserted [None; Some work; Some home] /\
  TasksView.reorderCategories 0 0 sample = Reordered (Plugin.saveSettings sample) /\
  saved (Plugin.saveSettings sample) = [settings sample] /\
  refreshes (Plugin.saveSettings sample) = 1 /\
  saved sample = [] /\
  refreshes sample = 0.
Proof. repeat split. Qed.

(** C8.  For two different indices inside the category array, moving the
    category at [i] to [j] and then, in the array this gives, the category at
    [j] to [i] gives the category sequence the document had. *)
Theorem reorderCategories_round_trip (i j : Z) (w : World) :
  (0 <= i < Z.of_nat (length (categories (settings w))))%Z ->
  (0 <= j < Z.of_nat (length (categories (settings w))))%Z ->
  i <> j ->
  exists w1 w2,
    TasksView.reorderCategories i j w = Reordered w1 /\
    TasksView.reorderCategories j i w1 = Reordered w2 /\
    categories (settings w2) = categories (settings w).
Proof.
  intros Hi Hj _.
  assert (Hi' : Z.to_nat i < length (categories (settings w))) by lia.
  assert (Hj' : Z.to_nat j < length (categories (settings w))) by lia.
  pose proof (reorderCategories_in_bounds _ _ w Hi' Hj') as R1.
  rewrite !Z2Nat.id in R1 by lia.
  set (w1 := Plugin.saveSettings
               (with_categories
                  (list_move (Z.to_nat i) (Z.to_nat j) (categories (settings w))) w)) in *.
  assert (L : length (categories (settings w1)) = length (categories (settings w))).
  { unfold w1. cbn. apply length_list_move. exact Hi'. }
  assert (Hi1 : Z.to_nat i < length (categories (settings w1))) by lia.
  assert (Hj1 : Z.to_nat j < length (categories (settings w1))) by lia.
  pose proof (reorderCategories_in_bounds _ _ w1 Hj1 Hi1) as R2.
  rewrite !Z2Nat.id in R2 by lia.
  eexists. eexists. split; [exact R1|]. split; [exact R2|].
  unfold w1. cbn. apply list_move_back; assumption.
Qed.

Lemma reorderCategories_round_trip_witness :
  (0 <= 0 < Z.of_nat (length (categories (settings sample))))%Z /\
  (0 <= 1 < Z.of_nat (length (categories (settings sample))))%Z /\
  0%Z <> 1%Z /\
  exists w1 w2,
    TasksView.reorderCategories 0 1 sample = Reordered w1 /\
    TasksView.reorderCategories 1 0 w1 = Reordered w2 /\
    categories (settings w2) = categories (settings sample).
Proof.
  assert (H0 : (0 <= 0 < Z.of_nat (length (categories (settings sample))))%Z)
    by (simpl; lia).
  assert (H1 : (0 <= 1 < Z.of_nat (length (categories (settings sample))))%Z)
    by (simpl; lia).
  assert (N : 0%Z <> 1%Z) by discriminate.
  split; [exact H0|]. split; [exact H1|]. split; [exact N|].
  exact (reorderCategories_round_trip 0 1 sample H0 H1 N).
Defined.

(** ** Persistence and refresh *)

Lemma saveSettings_effects (w : World) :
  settings (Plugin.saveSettings w) = settings w /\
  view (Plugin.saveSettings w) = view w /\
  saved (Plugin.saveSettings w) = settings w :: saved w /\
  refreshes (Plugin.saveSettings w) = (if view w then S (refreshes w) else refreshes w).
Proof. repeat split. Qed.

(** C2, as the code has it.  A call of [addTask], [deleteTask],
    [sortCategoryTasks] or [toggleTask] whose category id is not in the
    document, and a call of [toggleTask] whose task id is not in the
    category, leaves everything as it is: no [saveData], no refresh.  Every
    other call of a mutating method saves the document it leaves, once, and
    refreshes the view once when a view is open, whether or not the document
    changed; [deleteCategory] with an id that is not there is such a call. *)
Theorem run_saves_unless_it_misses (op : Op) (w w' : World) :
  run op w = Some w' ->
  view w' = view w /\
  if misses op w
  then w' = w
  else saved w' = settings w' :: saved w /\
       refreshes w' = (if view w then S (refreshes w) else refreshes w).
Proof.
  destruct op; cbn [run misses].
  - intros H; injection H as <-. repeat split.
  - intros H; injection H as <-. repeat split.
  - intros H; injection H as <-. unfold TasksView.addTask.
    destruct (find (hasId categoryId) (categories (settings w))) eqn:F.
    + replace (existsb (hasId categoryId) (categories (settings w))) with true.
      * repeat split.
      * symmetry. apply not_false_is_true. intros X.
        apply find_none_existsb in X. congruence.
    + apply find_none_existsb in F. rewrite F. split; reflexivity.
  - intros H; injection H as <-. unfold TasksView.toggleTask.
    destruct (find (hasId categoryId) (categories (settings w))) eqn:F;
      [|split; reflexivity].
    destruct (find (hasTaskId taskId) (Category.tasks t)) eqn:G.
    + replace (existsb (hasTaskId taskId) (Category.tasks t)) with true.
      * repeat split.
      * symmetry. apply not_false_is_true. intros X.
        apply find_none_existsb in X. congruence.
    + apply find_none_existsb in G. rewrite G. split; reflexivity.
  - intros H; injection H as <-. unfold TasksView.deleteTask.
    destruct (find (hasId categoryId) (categories (settings w))) eqn:F.
    + replace (existsb (hasId categoryId) (categories (settings w))) with true.
      * repeat split.
      * symmetry. apply not_false_is_true. intros X.
        apply find_none_existsb in X. congruence.
    + apply find_none_existsb in F. rewrite F. split; reflexivity.
  - intros H; injection H as <-. unfold TasksView.sortCategoryTasks.
    destruct (find (hasId categoryId) (categories (settings w))) eqn:F.
    + replace (existsb (hasId categoryId) (categories (settings w))) with true.
      * repeat split.
      * symmetry. apply not_false_is_true. intros X.
        apply find_none_existsb in X. congruence.
    + apply find_none_existsb in F. rewrite F. split; reflexivity.
  - unfold TasksView.reorderCategories.
    destruct (defined _); [|discriminate].
    intros H; injection H as <-. repeat split.
  - intros H; injection H as <-. repeat split.
  - intros H; injection H as <-. repeat split.
Qed.

Lemma run_saves_unless_it_misses_witness :
  run (DeleteCategory "3") sample = Some (TasksView.deleteCategory "3" sample) /\
  misses (DeleteCategory "3") sample = false /\
  saved (TasksView.deleteCategory "3" sample)
    = settings (TasksView.deleteCategory "3" sample) :: saved sample.
Proof.
  split; [reflexivity|]. split; [reflexivity|].
  exact (proj1 (proj2 (run_saves_unless_it_misses (DeleteCategory "3") sample
                         (TasksView.deleteCategory "3" sample) eq_refl))).
Defined.

(** C2, as the specification has it, fails: no category of the sample
    document has the id 3, [deleteCategory] with that id leaves the
    categories as they are, and still it saves the document and refreshes
    the view. *)
Lemma deleteCategory_absent_id_counterexample :
  existsb (hasId "3") (categories (settings sample)) = false /\
  settings (TasksView.deleteCategory "3" sample) = settings sample /\
  saved sample = [] /\
  refreshes sample = 0 /\
  saved (TasksView.deleteCategory "3" sample) = [settings sample] /\
  refreshes (TasksView.deleteCategory "3" sample) = 1.
Proof. repeat split. Qed.

(** ** Empty names and texts *)

Lemma Forall_update_first (A : Type) (P : A -> Prop) (p : A -> bool) (f : A -> A)
    (l : list A) :
  (forall x, P x -> P (f x)) -> Forall P l -> Forall P (update_first p f l).
Proof.
  intros K. induction 1 as [|x r Hx Hr IH]; simpl; [constructor|].
  destruct (p x); constructor; auto.
Qed.

Lemma addTask_NoEmptyText (now : Z) (categoryId text : string) (dueDate : option string)
    (w : World) :
  text <> EmptyString -> NoEmptyText (settings w) ->
  NoEmptyText (settings (TasksView.addTask now categoryId text dueDate w)).
Proof.
  intros T H. unfold TasksView.addTask.
  destruct (find (hasId categoryId) (categories (settings w))); [|exact H].
  unfold NoEmptyText in *. cbn.
  apply Forall_update_first; [|exact H].
  intros c [Hn Ht]. cbn. split; [exact Hn|].
  apply Forall_app. split; [exact Ht|]. constructor; [exact T|constructor].
Qed.

Lemma addCategory_NoEmptyText (nowC nowT : Z) (name firstTaskText : string)
    (dueDate : option string) (w : World) :
  name <> EmptyString -> NoEmptyText (settings w) ->
  NoEmptyText (settings (Plugin.addCategory nowC nowT name firstTaskText dueDate w)).
Proof.
  intros N H. unfold Plugin.addCategory, NoEmptyText in *. cbn.
  apply Forall_app. split; [exact H|].
  constructor; [|constructor].
  destruct (truthy firstTaskText) eqn:T; cbn.
  - split; [exact N|]. constructor; [|constructor].
    cbn. apply truthy_nonempty. exact T.
  - split; [exact N|constructor].
Qed.

(** C3, as the code has it.  Neither [addCategory] nor [addTask] looks at
    the text it is given; the handlers that call them do.  The Create button
    of the modal, with a name or a first task that is empty once trimmed,
    shows a notice and touches neither the document nor the storage nor the
    view; the inline input with a text that is empty once trimmed does
    nothing at all.  A document without an empty name or text stays so under
    both handlers. *)
Theorem submit_rejects_empty_text
    (nowC nowT now : Z) (nameInput taskInput dateInput categoryId textInput : string)
    (w : World) :
  (trim nameInput = EmptyString \/ trim taskInput = EmptyString ->
     let w' := AddCategoryModal.submit nowC nowT nameInput taskInput dateInput w in
     settings w' = settings w /\ saved w' = saved w /\ refreshes w' = refreshes w /\
     notices w' = "Both fields are required."%string :: notices w) /\
  (trim textInput = EmptyString ->
     TasksView.submit now categoryId textInput dateInput w = w) /\
  (NoEmptyText (settings w) ->
     NoEmptyText
       (settings (AddCategoryModal.submit nowC nowT nameInput taskInput dateInput w)) /\
     NoEmptyText (settings (TasksView.submit now categoryId textInput dateInput w))).
Proof.
  split; [|split].
  - intros H w'. unfold w', AddCategoryModal.submit.
    replace (negb (truthy (trim nameInput)) || negb (truthy (trim taskInput)))
      with true; [repeat split|].
    symmetry. destruct H as [H|H]; rewrite H; [reflexivity|apply orb_true_r].
  - intros H. unfold TasksView.submit. rewrite H. reflexivity.
  - intros H. split.
    + unfold AddCategoryModal.submit.
      destruct (truthy (trim nameInput)) eqn:N; cbn [negb orb]; [|exact H].
      destruct (truthy (trim taskInput)) eqn:T; cbn [negb]; [|exact H].
      apply addCategory_NoEmptyText; [|exact H].
      apply truthy_nonempty. exact N.
    + unfold TasksView.submit.
      destruct (truthy (trim textInput)) eqn:T; [|exact H].
      apply addTask_NoEmptyText; [|exact H].
      apply truthy_nonempty. exact T.
Qed.

Lemma submit_rejects_empty_text_witness :
  (trim "  " = EmptyString \/ trim "a" = EmptyString) /\
  trim " " = EmptyString /\
  NoEmptyText (settings sample) /\
  settings (AddCategoryModal.submit 5 5 "  " "a" "" sample) = settings sample /\
  TasksView.submit 6 "1" " " "" sample = sample /\
  NoEmptyText (settings (AddCategoryModal.submit 5 5 "  " "a" "" sample)).
Proof.
  assert (H1 : trim "  " = EmptyString \/ trim "a" = EmptyString) by (left; reflexivity).
  assert (H2 : trim " " = EmptyString) by reflexivity.
  assert (H3 : NoEmptyText (settings sample)).
  { unfold NoEmptyText. simpl.
    repeat (constructor; try (split; [discriminate|]); try discriminate). }
  destruct (submit_rejects_empty_text 5 5 6 "  " "a" "" "1" " " sample) as (A1 & A2 & A3).
  split; [exact H1|]. split; [exact H2|]. split; [exact H3|].
  split; [exact (proj1 (A1 H1))|]. split; [exact (A2 H2)|exact (proj1 (A3 H3))].
Defined.

(** C3, as the specification has it, fails: [addCategory] with an empty
    name adds a category without a name, and [addTask] with an empty text
    adds a task without a text; both save the document. *)
Lemma empty_text_is_stored_counterexample :
  categories (settings (Plugin.addCategory 5 5 "" "" None (initial true)))
    = [Category.mk "5" "" [] (Some false) (Some EmptyString) None] /\
  saved (Plugin.addCategory 5 5 "" "" None (initial true))
    = [settings (Plugin.addCategory 5 5 "" "" None (initial true))] /\
  map Task.text
    (flat_map Category.tasks
       (categories (settings (TasksView.addTask 6 "1" "" None sample))))
    = ["A"; "B"; "C"; ""; "D"; "B"]%string /\
  saved (TasksView.addTask 6 "1" "" None sample)
    = [settings (TasksView.addTask 6 "1" "" None sample)].
Proof. repeat split. Qed.

(** ** Identifiers *)

Lemma runAll_Reachable (ops : list Op) (w w' : World) :
  Reachable w -> runAll ops w = Some w' -> Reachable w'.
Proof.
  revert w. induction ops as [|op rest IH]; simpl; intros w R H.
  - injection H as <-. exact R.
  - destruct (run op w) as [w1|] eqn:E; [|discriminate].
    apply IH with w1; [|exact H].
    apply reach_run with op w; assumption.
Qed.

(** C9 asks that in every document reached from the empty one no two
    categories and no two tasks have one identifier.  The code does not keep
    this.  An identifier is the reading of the clock at the creation, and
    nothing makes two readings differ: two tasks added at one reading have
    one id.  The document below is reached from the empty one with one
    [addCategory] and two [addTask], and holds the task id 1001 twice. *)
Theorem same_clock_reading_same_id :
  exists w,
    runAll same_tick (initial true) = Some w /\
    Reachable w /\
    taskIds (settings w) = ["1000-task"; "1001"; "1001"]%string /\
    ~ UniqueIds (settings w).
Proof.
  eexists. split; [reflexivity|]. split; [|split].
  - apply runAll_Reachable with same_tick (initial true);
      [apply reach_initial|reflexivity].
  - reflexivity.
  - intros [_ H]. cbn in H.
    inversion H as [|x l _ H1]; subst.
    inversion H1 as [|y l' N _]; subst.
    apply N. left. reflexivity.
Qed.

(** What does hold: identifiers made from different clock readings are
    different. *)

Lemma toString_inj (a b : Z) : toString a = toString b -> a = b.
Proof.
  unfold toString. intros H.
  assert (P : forall z, NilZero.int_of_string (NilZero.string_of_int (Z.to_int z))
                        = Some (Z.to_int z)).
  { intros z. apply NilZero.isi; destruct z; simpl; try discriminate;
      intros [= E]; revert E; apply DecimalPos.Unsigned.to_uint_nonnil. }
  apply DecimalZ.to_int_inj.
  pose proof (P a) as Pa. rewrite H, P in Pa. congruence.
Qed.

Lemma mentions_append (c : ascii) (s t : string) :
  mentions c (s ++ t)%string = mentions c s || mentions c t.
Proof.
  induction s as [|a r IH]; simpl; [reflexivity|].
  rewrite IH. apply orb_assoc.
Qed.

Lemma string_of_uint_no_k (d : Decimal.uint) :
  mentions "k" (NilEmpty.string_of_uint d) = false.
Proof.
  induction d; simpl; try assumption; reflexivity.
Qed.

Lemma toString_no_k (n : Z) : mentions "k" (toString n) = false.
Proof.
  unfold toString.
  destruct (Z.to_int n) as [d|d]; simpl;
    destruct d; simpl; try reflexivity; apply string_of_uint_no_k.
Qed.

Lemma toString_not_task (n m : Z) : toString n <> (toString m ++ "-task")%string.
Proof.
  intros H.
  pose proof (toString_no_k n) as K. rewrite H, mentions_append in K.
  rewrite orb_false_iff in K. destruct K as [_ K]. discriminate.
Qed.

Lemma length_append (s t : string) :
  String.length (s ++ t)%string = String.length s + String.length t.
Proof.
  induction s as [|a r IH]; simpl; [reflexivity|]. rewrite IH. reflexivity.
Qed.

Lemma append_cancel_r (t s1 s2 : string) :
  (s1 ++ t)%string = (s2 ++ t)%string -> s1 = s2.
Proof.
  intros H.
  assert (L : String.length s1 = String.length s2).
  { apply (f_equal String.length) in H.
    rewrite !length_append in H. lia. }
  revert s2 H L. induction s1 as [|a r IH]; intros [|b r2] H L;
    simpl in *; try discriminate; [reflexivity|].
  injection H as -> H. f_equal. apply IH; [exact H|lia].
Qed.

Lemma task_suffix_inj (n m : Z) :
  (toString n ++ "-task")%string = (toString m ++ "-task")%string -> n = m.
Proof.
  intros H. apply toString_inj. apply append_cancel_r with "-task"%string. exact H.
Qed.

Section Shrinking.

Context {A : Type}.

Lemma Subseq_refl (l : list A) : Subseq l l.
Proof. induction l; constructor; assumption. Qed.

Lemma Subseq_incl (l1 l2 : list A) : Subseq l1 l2 -> incl l1 l2.
Proof.
  induction 1 as [|x l1 l2 _ IH|x l1 l2 _ IH]; intros y Hy.
  - exact Hy.
  - right. apply IH. exact Hy.
  - destruct Hy as [->|Hy]; [left; reflexivity|right; apply IH; exact Hy].
Qed.

Lemma Subseq_NoDup (l1 l2 : list A) : Subseq l1 l2 -> NoDup l2 -> NoDup l1.
Proof.
  induction 1 as [|x l1 l2 _ IH|x l1 l2 S IH]; intros N.
  - exact N.
  - inversion N; subst. apply IH. assumption.
  - inversion N as [|y l Hn Hl]; subst. constructor.
    + intros Hx. apply Hn. apply (Subseq_incl _ _ S). exact Hx.
    + apply IH. exact Hl.
Qed.

Lemma Subseq_app (a' a b' b : list A) :
  Subseq a' a -> Subseq b' b -> Subseq (a' ++ b') (a ++ b).
Proof.
  induction 1 as [|x l1 l2 _ IH|x l1 l2 _ IH]; intros Hb; simpl.
  - exact Hb.
  - apply subseq_skip. apply IH. exact Hb.
  - apply subseq_keep. apply IH. exact Hb.
Qed.

Lemma Subseq_Shrinks (l' l : list A) : Subseq l' l -> Shrinks l' l.
Proof.
  intros S. split; [apply Subseq_NoDup; exact S|apply Subseq_incl; exact S].
Qed.

Lemma Permutation_Shrinks (l' l : list A) : Permutation l l' -> Shrinks l' l.
Proof.
  intros P. split.
  - apply Permutation_NoDup. exact P.
  - intros x Hx. apply Permutation_in with l'; [apply Permutation_sym; exact P|exact Hx].
Qed.

Lemma Shrinks_refl (l : list A) : Shrinks l l.
Proof. apply Subseq_Shrinks, Subseq_refl. Qed.

Lemma defined_insert (a b : list A) (m : option A) :
  defined (map Some a ++ m :: map Some b)
  = match m with
    | Some x => Some (a ++ x :: b)
    | None => None
    end.
Proof.
  induction a as [|y a IH]; simpl.
  - destruct m; [|reflexivity]. rewrite defined_map_Some. reflexivity.
  - rewrite IH. destruct m; reflexivity.
Qed.

(** Whatever the indices, an array [reorderCategories] leaves without
    [undefined] in it has the elements it had. *)
Lemma reorder_slots_defined (fromIndex toIndex : Z) (l cs : list A) :
  defined (TasksView.reorder_slots fromIndex toIndex l) = Some cs ->
  Permutation l cs.
Proof.
  unfold TasksView.reorder_slots, splice.
  set (s := actualStart fromIndex (length l)).
  set (d := Nat.min 1 (length l - s)).
  cbn [app snd Nat.min]. rewrite Nat.add_0_r.
  set (rest := firstn s l ++ skipn (s + d) l).
  set (s2 := actualStart toIndex (length (map Some rest))).
  rewrite firstn_map, skipn_map, defined_insert.
  destruct (skipn s l) as [|x tl] eqn:E.
  - rewrite firstn_nil. cbn [hd_error]. discriminate.
  - assert (Hd : d = 1).
    { pose proof (length_skipn s l) as L. rewrite E in L. simpl in L.
      unfold d. lia. }
    assert (Ht : skipn (s + 1) l = tl).
    { rewrite Nat.add_comm, <- skipn_skipn, E. reflexivity. }
    assert (Hrest : rest = firstn s l ++ tl).
    { unfold rest. rewrite Hd, Ht. reflexivity. }
    rewrite Hd. cbn [firstn hd_error].
    intros H. injection H as <-.
    apply perm_trans with (x :: firstn s l ++ tl).
    + rewrite <- (firstn_skipn s l) at 1. rewrite E.
      apply Permutation_sym, Permutation_middle.
    + rewrite <- Hrest. rewrite <- (firstn_skipn s2 rest) at 1.
      apply Permutation_middle.
Qed.

End Shrinking.

Section UpdateFirstIds.

Context {A B : Type}.
Variable p : A -> bool.
Variable f : A -> A.

Lemma map_update_first (h : A -> B) (l : list A) :
  (forall x, h (f x) = h x) -> map h (update_first p f l) = map h l.
Proof.
  intros K. induction l as [|x r IH]; simpl; [reflexivity|].
  destruct (p x); simpl; [rewrite K|rewrite IH]; reflexivity.
Qed.

Lemma flat_map_update_first (g : A -> list B) (l : list A) :
  (forall x, g (f x) = g x) -> flat_map g (update_first p f l) = flat_map g l.
Proof.
  intros K. induction l as [|x r IH]; simpl; [reflexivity|].
  destruct (p x); simpl; [rewrite K|rewrite IH]; reflexivity.
Qed.

Lemma flat_map_update_first_Subseq (g : A -> list B) (l : list A) :
  (forall x, Subseq (g (f x)) (g x)) ->
  Subseq (flat_map g (update_first p f l)) (flat_map g l).
Proof.
  intros K. induction l as [|x r IH]; simpl; [constructor|].
  destruct (p x); simpl.
  - apply Subseq_app; [apply K|apply Subseq_refl].
  - apply Subseq_app; [apply Subseq_refl|exact IH].
Qed.

Lemma flat_map_update_first_Permutation (g : A -> list B) (l : list A) :
  (forall x, Permutation (g x) (g (f x))) ->
  Permutation (flat_map g l) (flat_map g (update_first p f l)).
Proof.
  intros K. induction l as [|x r IH]; simpl; [constructor|].
  destruct (p x); simpl.
  - apply Permutation_app_tail. apply K.
  - apply Permutation_app_head. exact IH.
Qed.

Lemma flat_map_update_first_grow (g : A -> list B) (y : B) (l : list A) (c : A) :
  find p l = Some c ->
  (forall x, g (f x) = g x ++ [y]) ->
  Permutation (y :: flat_map g l) (flat_map g (update_first p f l)).
Proof.
  intros F K. revert F. induction l as [|x r IH]; simpl; [discriminate|].
  destruct (p x); simpl.
  - intros _. rewrite K. rewrite <- app_assoc. simpl.
    apply Permutation_middle.
  - intros F. apply perm_trans with (g x ++ y :: flat_map g r).
    + apply Permutation_middle.
    + apply Permutation_app_head. apply IH. exact F.
Qed.

Lemma flat_map_filter_Subseq (g : A -> list B) (q : A -> bool) (l : list A) :
  Subseq (flat_map g (filter q l)) (flat_map g l).
Proof.
  induction l as [|x r IH]; simpl; [constructor|].
  destruct (q x); simpl.
  - apply Subseq_app; [apply Subseq_refl|exact IH].
  - change (flat_map g (filter q r)) with ([] ++ flat_map g (filter q r)).
    apply Subseq_app; [|exact IH].
    clear. induction (g x); constructor; assumption.
Qed.

Lemma map_filter_Subseq (h : A -> B) (q : A -> bool) (l : list A) :
  Subseq (map h (filter q l)) (map h l).
Proof.
  induction l as [|x r IH]; simpl; [constructor|].
  destruct (q x); simpl; constructor; exact IH.
Qed.

End UpdateFirstIds.

(** What a call does to the identifiers in the document: a creation adds the
    identifier made from its clock reading, every other call at most drops
    or reorders identifiers. *)
Lemma run_ids (op : Op) (w w' : World) :
  run op w = Some w' ->
  match op with
  | AddCategory nowC nowT _ firstTaskText _ =>
      categoryIds (settings w') = categoryIds (settings w) ++ [toString nowC] /\
      taskIds (settings w')
      = taskIds (settings w) ++
        (if truthy firstTaskText then [(toString nowT ++ "-task")%string] else [])
  | AddTask now _ _ _ =>
      categoryIds (settings w') = categoryIds (settings w) /\
      (taskIds (settings w') = taskIds (settings w) \/
       Permutation (toString now :: taskIds (settings w)) (taskIds (settings w')))
  | _ =>
      Shrinks (categoryIds (settings w')) (categoryIds (settings w)) /\
      Shrinks (taskIds (settings w')) (taskIds (settings w))
  end.
Proof.
  unfold categoryIds, taskIds.
  destruct op; cbn [run]; intros H; try (injection H as <-).
  - unfold Plugin.addCategory. cbn. rewrite map_app, flat_map_app.
    destruct (truthy firstTaskText); cbn; split; reflexivity.
  - unfold TasksView.deleteCategory. cbn. split.
    + apply Subseq_Shrinks, map_filter_Subseq.
    + apply Subseq_Shrinks, flat_map_filter_Subseq.
  - unfold TasksView.addTask.
    destruct (find (hasId categoryId) (categories (settings w))) eqn:F;
      [|split; [reflexivity|left; reflexivity]].
    cbn. split.
    + apply map_update_first. reflexivity.
    + right. apply flat_map_update_first_grow with t; [exact F|].
      intros x. cbn. rewrite map_app. reflexivity.
  - unfold TasksView.toggleTask.
    destruct (find (hasId categoryId) (categories (settings w))) eqn:F;
      [|split; apply Shrinks_refl].
    destruct (find (hasTaskId taskId) (Category.tasks t));
      [|split; apply Shrinks_refl].
    cbn. rewrite map_update_first by reflexivity.
    rewrite flat_map_update_first.
    + split; apply Shrinks_refl.
    + intros x. cbn. apply map_update_first. reflexivity.
  - unfold TasksView.deleteTask.
    destruct (find (hasId categoryId) (categories (settings w))) eqn:F;
      [|split; apply Shrinks_refl].
    cbn. rewrite map_update_first by reflexivity.
    split; [apply Shrinks_refl|].
    apply Subseq_Shrinks, flat_map_update_first_Subseq.
    intros x. cbn. apply map_filter_Subseq.
  - unfold TasksView.sortCategoryTasks.
    destruct (find (hasId categoryId) (categories (settings w))) eqn:F;
      [|split; apply Shrinks_refl].
    cbn. rewrite map_update_first by reflexivity.
    split; [apply Shrinks_refl|].
    apply Permutation_Shrinks, flat_map_update_first_Permutation.
    intros x. cbn. apply Permutation_map, Array_sort_perm.
  - unfold TasksView.reorderCategories in H.
    destruct (defined _) as [cs|] eqn:D; [|discriminate].
    injection H as <-. cbn.
    apply reorder_slots_defined in D. split.
    + apply Permutation_Shrinks, Permutation_map. exact D.
    + apply Permutation_Shrinks, Permutation_flat_map. exact D.
  - unfold TasksView.toggleAllCategories. cbn.
    generalize (existsb (fun c => negb (truthy_flag (Category.isCollapsed c)))
                  (categories (settings w))).
    intros b. rewrite map_map. cbn. split; [apply Shrinks_refl|].
    apply Subseq_Shrinks.
    induction (categories (settings w)) as [|c r IH]; cbn; [constructor|].
    apply Subseq_app; [apply Subseq_refl|exact IH].
  - unfold TasksView.cleanCompletedTasks. cbn.
    rewrite map_map. cbn. split; [apply Shrinks_refl|].
    apply Subseq_Shrinks.
    induction (categories (settings w)) as [|c r IH]; cbn; [constructor|].
    apply Subseq_app; [apply map_filter_Subseq|exact IH].
Qed.

Lemma NoDup_app_disjoint (A : Type) (a b : list A) (x : A) :
  NoDup (a ++ b) -> In x a -> ~ In x b.
Proof.
  induction a as [|y a IH]; simpl; intros N Hx Hb; [contradiction|].
  inversion N as [|z l Hn Hl]; subst.
  destruct Hx as [->|Hx].
  - apply Hn. apply in_or_app. right. exact Hb.
  - exact (IH Hl Hx Hb).
Qed.

Lemma IdsFrom_Shrinks (usedC usedT : list Z) (s s' : SimpleTasksBlocksSettings) :
  IdsFrom usedC usedT s ->
  Shrinks (categoryIds s') (categoryIds s) ->
  Shrinks (taskIds s') (taskIds s) ->
  IdsFrom usedC usedT s'.
Proof.
  intros ([Nc Nt] & Hc & Ht) [Sc Ic] [St It].
  split; [split; auto|]. split.
  - intros i Hi. apply Hc, Ic, Hi.
  - intros i Hi. apply Ht, It, Hi.
Qed.

Lemma IdsFrom_more (usedC usedC' usedT usedT' : list Z) (s : SimpleTasksBlocksSettings) :
  IdsFrom usedC usedT s -> incl usedC usedC' -> incl usedT usedT' ->
  IdsFrom usedC' usedT' s.
Proof.
  intros (U & Hc & Ht) Ic It. split; [exact U|]. split.
  - intros i Hi. destruct (Hc i Hi) as (n & Hn & E). exists n. split; auto.
  - intros i Hi. destruct (Ht i Hi) as (n & Hn & E). exists n. split; auto.
Qed.

Lemma fresh_task_id (usedC usedT : list Z) (s : SimpleTasksBlocksSettings) (now : Z) :
  IdsFrom usedC usedT s -> ~ In now usedT ->
  ~ In (toString now) (taskIds s) /\
  ~ In (toString now ++ "-task")%string (taskIds s).
Proof.
  intros (_ & _ & Ht) F. split; intros Hi; destruct (Ht _ Hi) as (n & Hn & [E|E]).
  - apply toString_inj in E. subst n. contradiction.
  - exact (toString_not_task _ _ E).
  - symmetry in E. exact (toString_not_task _ _ E).
  - apply task_suffix_inj in E. subst n. contradiction.
Qed.

Lemma run_IdsFrom (op : Op) (w w' : World) (usedC usedT : list Z) :
  run op w = Some w' ->
  IdsFrom usedC usedT (settings w) ->
  (forall n, In n (categoryReadings op) -> ~ In n usedC) ->
  (forall n, In n (taskReadings op) -> ~ In n usedT) ->
  IdsFrom (categoryReadings op ++ usedC) (taskReadings op ++ usedT) (settings w').
Proof.
  intros R I Fc Ft. pose proof (run_ids op w w' R) as K.
  destruct op; cbn [categoryReadings taskReadings app] in *;
    try (destruct K as [Kc Kt]; apply IdsFrom_Shrinks with (settings w); assumption).
  - destruct K as [Kc Kt].
    assert (Fc' : ~ In nowC usedC) by (apply Fc; left; reflexivity).
    pose proof I as ([Nc Nt] & Hc & Ht).
    split; [split|split].
    + rewrite Kc. apply Permutation_NoDup with (toString nowC :: categoryIds (settings w)).
      * apply Permutation_cons_append.
      * constructor; [|exact Nc].
        intros Hi. destruct (Hc _ Hi) as (n & Hn & E).
        apply toString_inj in E. subst n. contradiction.
    + rewrite Kt. destruct (truthy firstTaskText); [|rewrite app_nil_r; exact Nt].
      apply Permutation_NoDup
        with ((toString nowT ++ "-task")%string :: taskIds (settings w)).
      * apply Permutation_cons_append.
      * constructor; [|exact Nt].
        apply (fresh_task_id usedC usedT (settings w) nowT I).
        apply Ft. left. reflexivity.
    + rewrite Kc. intros i Hi. apply in_app_or in Hi. destruct Hi as [Hi|[<-|[]]].
      * destruct (Hc i Hi) as (n & Hn & E). exists n. split; [right; exact Hn|exact E].
      * exists nowC. split; [left; reflexivity|reflexivity].
    + rewrite Kt. intros i Hi. apply in_app_or in Hi. destruct Hi as [Hi|Hi].
      * destruct (Ht i Hi) as (n & Hn & E). exists n.
        split; [apply in_or_app; right; exact Hn|exact E].
      * destruct (truthy firstTaskText); [|contradiction].
        destruct Hi as [<-|[]]. exists nowT.
        split; [left; reflexivity|right; reflexivity].
  - destruct K as [Kc [Kt|Kt]].
    + apply IdsFrom_more with usedC usedT.
      * apply IdsFrom_Shrinks with (settings w); [exact I| |].
        -- rewrite Kc. apply Shrinks_refl.
        -- rewrite Kt. apply Shrinks_refl.
      * apply incl_refl.
      * apply incl_tl, incl_refl.
    + assert (Ft' : ~ In now usedT) by (apply Ft; left; reflexivity).
      pose proof I as ([Nc Nt] & Hc & Ht).
      split; [split|split].
      * rewrite Kc. exact Nc.
      * apply Permutation_NoDup with (1 := Kt). constructor; [|exact Nt].
        apply (fresh_task_id usedC usedT (settings w) now I Ft').
      * rewrite Kc. exact Hc.
      * intros i Hi. apply Permutation_in with (1 := Permutation_sym Kt) in Hi.
        destruct Hi as [<-|Hi].
        -- exists now. split; [left; reflexivity|left; reflexivity].
        -- destruct (Ht i Hi) as (n & Hn & E). exists n. split; [right; exact Hn|exact E].
Qed.

Lemma runAll_IdsFrom (ops : list Op) (w w' : World) (usedC usedT : list Z) :
  runAll ops w = Some w' ->
  IdsFrom usedC usedT (settings w) ->
  NoDup (flat_map categoryReadings ops ++ usedC) ->
  NoDup (flat_map taskReadings ops ++ usedT) ->
  UniqueIds (settings w').
Proof.
  revert w usedC usedT. induction ops as [|op rest IH]; simpl; intros w usedC usedT R I Nc Nt.
  - injection R as <-. apply I.
  - destruct (run op w) as [w1|] eqn:E; [|discriminate].
    rewrite <- app_assoc in Nc, Nt.
    apply IH with w1 (categoryReadings op ++ usedC) (taskReadings op ++ usedT).
    + exact R.
    + apply run_IdsFrom with w; [exact E|exact I| |].
      * intros n Hn Hu. apply (NoDup_app_disjoint _ _ _ n Nc Hn).
        apply in_or_app. right. exact Hu.
      * intros n Hn Hu. apply (NoDup_app_disjoint _ _ _ n Nt Hn).
        apply in_or_app. right. exact Hu.
    + apply Permutation_NoDup with (2 := Nc). apply Permutation_app_swap_app.
    + apply Permutation_NoDup with (2 := Nt). apply Permutation_app_swap_app.
Qed.

(** X19.  Starting from the empty document, identifiers are unique as long as no
    two categories are created at one clock reading and no two tasks are. *)
Theorem distinct_readings_unique_ids (ops : list Op) (v : bool) (w : World) :
  runAll ops (initial v) = Some w ->
  NoDup (flat_map categoryReadings ops) ->
  NoDup (flat_map taskReadings ops) ->
  UniqueIds (settings w).
Proof.
  intros R Nc Nt.
  apply runAll_IdsFrom with ops (initial v) [] []; try assumption.
  - split; [split; constructor|]. split; intros i [].
  - rewrite app_nil_r. exact Nc.
  - rewrite app_nil_r. exact Nt.
Qed.

(** * Further properties of the code *)

(** ** [formatDate] *)

Section Split.

Variable sep : ascii.

Lemma split_free (s : string) : mentions sep s = false -> split sep s = [s].
Proof.
  induction s as [|c r IH]; simpl; [reflexivity|].
  intros H. apply orb_false_iff in H. destruct H as [Hc Hr].
  rewrite Hc, (IH Hr). reflexivity.
Qed.

Lemma split_app (a r : string) :
  mentions sep a = false ->
  split sep (a ++ String sep r)%string = a :: split sep r.
Proof.
  induction a as [|c a IH]; simpl.
  - intros _. rewrite Ascii.eqb_refl. reflexivity.
  - intros H. apply orb_false_iff in H. destruct H as [Hc Ha].
    rewrite Hc, (IH Ha). reflexivity.
Qed.

End Split.

Lemma append_assoc (a b c : string) : ((a ++ b) ++ c)%string = (a ++ (b ++ c))%string.
Proof.
  induction a as [|x a IH]; simpl; [reflexivity|]. rewrite IH. reflexivity.
Qed.

Lemma split_dashed (a b c : string) :
  mentions "-" a = false -> mentions "-" b = false -> mentions "-" c = false ->
  split "-" (dashed a b c) = [a; b; c].
Proof.
  intros Ha Hb Hc. unfold dashed. simpl.
  rewrite (split_app "-" a _ Ha), (split_app "-" b _ Hb), (split_free "-" c Hc).
  reflexivity.
Qed.

Lemma truthy_dashed (a b c : string) : truthy (dashed a b c) = true.
Proof.
  unfold dashed. destruct a; reflexivity.
Qed.

Lemma formatDate_unfold (moment : option string) (s : SimpleTasksBlocksSettings)
    (dateStr : string) :
  truthy dateStr = true ->
  TasksView.formatDate moment s dateStr
  = if dayFirst moment s
    then (template (nth_error (split "-" dateStr) 2) ++ "-" ++
          template (nth_error (split "-" dateStr) 1) ++ "-" ++
          template (nth_error (split "-" dateStr) 0))%string
    else dateStr.
Proof.
  intros T. unfold TasksView.formatDate, dayFirst. rewrite T. cbn [negb].
  destruct (dateFormat s); try reflexivity.
  destruct moment as [l|]; [|reflexivity].
  destruct (String.prefix "fr" l); reflexivity.
Qed.

Lemma formatDate_dashed (moment : option string) (s : SimpleTasksBlocksSettings)
    (y m d : string) :
  mentions "-" y = false -> mentions "-" m = false -> mentions "-" d = false ->
  dayFirst moment s = true ->
  TasksView.formatDate moment s (dashed y m d) = dashed d m y.
Proof.
  intros Hy Hm Hd F.
  rewrite formatDate_unfold by apply truthy_dashed.
  rewrite F, (split_dashed y m d Hy Hm Hd). reflexivity.
Qed.

(** X1.  [formatDate] turns year-month-day into day-month-year when the day comes
    first, whatever the three pieces are as long as none has a dash, and
    leaves every text as it is otherwise. *)
Theorem formatDate_day_first (moment : option string) (s : SimpleTasksBlocksSettings)
    (y m d dateStr : string) :
  mentions "-" y = false -> mentions "-" m = false -> mentions "-" d = false ->
  (dayFirst moment s = true ->
     TasksView.formatDate moment s (dashed y m d) = dashed d m y) /\
  (dayFirst moment s = false ->
     TasksView.formatDate moment s dateStr = dateStr).
Proof.
  intros Hy Hm Hd. split; intros F.
  - apply formatDate_dashed; assumption.
  - destruct (truthy dateStr) eqn:T.
    + rewrite formatDate_unfold by exact T. rewrite F. reflexivity.
    + unfold TasksView.formatDate. rewrite T. cbn.
      unfold truthy in T. apply negb_false_iff, String.eqb_eq in T.
      symmetry. exact T.
Qed.

Lemma formatDate_day_first_witness :
  mentions "-" "2024" = false /\ mentions "-" "01" = false /\
  mentions "-" "02" = false /\
  dayFirst (Some "fr-ca"%string) (settings sample) = true /\
  dayFirst (Some "en-gb"%string) (settings sample) = false /\
  TasksView.formatDate (Some "fr-ca"%string) (settings sample) (dashed "2024" "01" "02")
    = dashed "02" "01" "2024" /\
  TasksView.formatDate (Some "en-gb"%string) (settings sample) jan2 = jan2.
Proof.
  split; [reflexivity|]. split; [reflexivity|]. split; [reflexivity|].
  split; [reflexivity|]. split; [reflexivity|]. split.
  - exact (proj1 (formatDate_day_first (Some "fr-ca"%string) (settings sample)
                    "2024" "01" "02" jan2 eq_refl eq_refl eq_refl) eq_refl).
  - exact (proj2 (formatDate_day_first (Some "en-gb"%string) (settings sample)
                    "2024" "01" "02" jan2 eq_refl eq_refl eq_refl) eq_refl).
Defined.

(** X2.  Formatting day first is its own inverse on dates: what it shows, formatted
    again, is the date that is stored. *)
Theorem formatDate_twice (moment : option string) (s : SimpleTasksBlocksSettings)
    (y m d : string) :
  mentions "-" y = false -> mentions "-" m = false -> mentions "-" d = false ->
  dayFirst moment s = true ->
  TasksView.formatDate moment s (TasksView.formatDate moment s (dashed y m d))
  = dashed y m d.
Proof.
  intros Hy Hm Hd F.
  rewrite (formatDate_dashed moment s y m d Hy Hm Hd F).
  exact (formatDate_dashed moment s d m y Hd Hm Hy F).
Qed.

Lemma formatDate_twice_witness :
  mentions "-" "2024" = false /\ mentions "-" "01" = false /\
  mentions "-" "02" = false /\
  dayFirst None (mkSettings [] false DD_MM_YYYY) = true /\
  TasksView.formatDate None (mkSettings [] false DD_MM_YYYY)
    (TasksView.formatDate None (mkSettings [] false DD_MM_YYYY) (dashed "2024" "01" "02"))
  = dashed "2024" "01" "02".
Proof.
  split; [reflexivity|]. split; [reflexivity|]. split; [reflexivity|].
  split; [reflexivity|].
  exact (formatDate_twice None (mkSettings [] false DD_MM_YYYY) "2024" "01" "02"
           eq_refl eq_refl eq_refl eq_refl).
Defined.

(** X3.  A text that is not a date is not refused.  Formatted day first, a text
    without a dash comes out behind two [undefined], a text of two pieces
    behind one, and of a text of more than three pieces the first three are
    used. *)
Theorem formatDate_not_a_date (moment : option string) (s : SimpleTasksBlocksSettings)
    (a b c rest : string) :
  dayFirst moment s = true ->
  mentions "-" a = false -> mentions "-" b = false -> mentions "-" c = false ->
  (a <> EmptyString ->
     TasksView.formatDate moment s a = dashed "undefined" "undefined" a) /\
  TasksView.formatDate moment s (a ++ "-" ++ b)%string = dashed "undefined" b a /\
  TasksView.formatDate moment s (dashed a b c ++ "-" ++ rest)%string = dashed c b a.
Proof.
  intros F Ha Hb Hc. split; [|split].
  - intros N. rewrite formatDate_unfold by (apply truthy_nonempty; exact N).
    rewrite F, (split_free "-" a Ha). reflexivity.
  - rewrite formatDate_unfold by (destruct a; reflexivity).
    rewrite F. simpl. rewrite (split_app "-" a _ Ha), (split_free "-" b Hb).
    reflexivity.
  - rewrite formatDate_unfold by (destruct a; reflexivity).
    rewrite F. unfold dashed. simpl.
    repeat (rewrite append_assoc; simpl).
    rewrite (split_app "-" a _ Ha), (split_app "-" b _ Hb), (split_app "-" c _ Hc).
    reflexivity.
Qed.

Lemma formatDate_not_a_date_witness :
  dayFirst None (mkSettings [] false DD_MM_YYYY) = true /\
  mentions "-" "soon" = false /\ "soon"%string <> EmptyString /\
  TasksView.formatDate None (mkSettings [] false DD_MM_YYYY) "soon"
    = "undefined-undefined-soon"%string.
Proof.
  split; [reflexivity|]. split; [reflexivity|]. split; [discriminate|].
  apply (formatDate_not_a_date None (mkSettings [] false DD_MM_YYYY)
           "soon" "" "" "" eq_refl eq_refl eq_refl eq_refl).
  discriminate.
Defined.

(** ** The store methods, one by one and composed *)

Section UpdateFirstCompose.

Context {A : Type}.
Variable p : A -> bool.

Lemma update_first_ext (f g : A -> A) (l : list A) :
  (forall x, f x = g x) -> update_first p f l = update_first p g l.
Proof.
  intros E. induction l as [|x r IH]; simpl; [reflexivity|].
  destruct (p x); [rewrite E|rewrite IH]; reflexivity.
Qed.

Lemma update_first_compose (f g : A -> A) (l : list A) :
  (forall x, p (f x) = p x) ->
  update_first p g (update_first p f l) = update_first p (fun x => g (f x)) l.
Proof.
  intros K. induction l as [|x r IH]; simpl; [reflexivity|].
  destruct (p x) eqn:Px; simpl.
  - rewrite K, Px. reflexivity.
  - rewrite Px, IH. reflexivity.
Qed.

Lemma update_first_same (f : A -> A) (l : list A) (c : A) :
  find p l = Some c -> f c = c -> update_first p f l = l.
Proof.
  induction l as [|x r IH]; simpl; [reflexivity|].
  destruct (p x).
  - intros [= ->] E. rewrite E. reflexivity.
  - intros F E. rewrite (IH F E). reflexivity.
Qed.

Lemma filter_negb_existsb (l : list A) :
  existsb p l = false -> filter (fun x => negb (p x)) l = l.
Proof.
  induction l as [|x r IH]; simpl; [reflexivity|].
  intros H. apply orb_false_iff in H. destruct H as [Hx Hr].
  rewrite Hx. simpl. rewrite (IH Hr). reflexivity.
Qed.

Lemma existsb_filter_negb (l : list A) :
  existsb p (filter (fun x => negb (p x)) l) = false.
Proof.
  induction l as [|x r IH]; simpl; [reflexivity|].
  destruct (p x) eqn:Px; simpl; [exact IH|]. rewrite Px, IH. reflexivity.
Qed.

Lemma filter_filter_same (q : A -> bool) (l : list A) :
  filter q (filter q l) = filter q l.
Proof.
  induction l as [|x r IH]; simpl; [reflexivity|].
  destruct (q x) eqn:Qx; simpl; [rewrite Qx, IH|rewrite IH]; reflexivity.
Qed.

End UpdateFirstCompose.

Lemma set_categories_same (s : SimpleTasksBlocksSettings) :
  set_categories (categories s) s = s.
Proof. destruct s. reflexivity. Qed.

Lemma set_tasks_same (c : Category.t) : Category.set_tasks (Category.tasks c) c = c.
Proof. destruct c. reflexivity. Qed.

Lemma hasId_false (i : string) (c : Category.t) :
  hasId i c = false <-> Category.id c <> i.
Proof. unfold hasId. apply String.eqb_neq. Qed.

Lemma hasTaskId_false (i : string) (k : Task.t) :
  hasTaskId i k = false <-> Task.id k <> i.
Proof. unfold hasTaskId. apply String.eqb_neq. Qed.

(** X4.  [deleteCategory] takes out every category that has the id, also when
    several have it, and keeps the others in their order.  Afterwards the id
    is not in the document: the methods that look a category up by it do
    nothing, and deleting once more changes nothing in the document. *)
Theorem deleteCategory_removes_all (id : string) (w : World) :
  let w' := TasksView.deleteCategory id w in
  existsb (hasId id) (categories (settings w')) = false /\
  (forall c, In c (categories (settings w')) <->
             In c (categories (settings w)) /\ Category.id c <> id) /\
  Subseq (categories (settings w')) (categories (settings w)) /\
  (forall now text dueDate, TasksView.addTask now id text dueDate w' = w') /\
  (forall taskId completed, TasksView.toggleTask id taskId completed w' = w') /\
  (forall taskId, TasksView.deleteTask id taskId w' = w') /\
  (forall todayStr, TasksView.sortCategoryTasks todayStr id w' = w') /\
  settings (TasksView.deleteCategory id w') = settings w'.
Proof.
  intros w'.
  assert (E : existsb (hasId id) (categories (settings w')) = false).
  { unfold w', TasksView.deleteCategory. cbn. apply existsb_filter_negb. }
  assert (F : find (hasId id) (categories (settings w')) = None).
  { apply find_none_existsb. exact E. }
  split; [exact E|]. split; [|split; [|repeat split]].
  - intros c. unfold w', TasksView.deleteCategory. cbn.
    rewrite filter_In, negb_true_iff, hasId_false. tauto.
  - unfold w', TasksView.deleteCategory. cbn. apply filter_Subseq.
  - intros. unfold TasksView.addTask. rewrite F. reflexivity.
  - intros. unfold TasksView.toggleTask. rewrite F. reflexivity.
  - intros. unfold TasksView.deleteTask. rewrite F. reflexivity.
  - intros. unfold TasksView.sortCategoryTasks. rewrite F. reflexivity.
  - clearbody w'. unfold TasksView.deleteCategory. cbn.
    rewrite (filter_negb_existsb _ _ E). apply set_categories_same.
Qed.

(** X5.  A category that was added is gone again, and the document is what it
    was, once it is deleted by the id it got, as long as no category of the
    document had that id before (one that had it is deleted with it).  Both
    calls save. *)
Theorem addCategory_then_deleteCategory
    (nowC nowT : Z) (name firstTaskText : string) (dueDate : option string) (w : World) :
  existsb (hasId (toString nowC)) (categories (settings w)) = false ->
  let w' := TasksView.deleteCategory (toString nowC)
              (Plugin.addCategory nowC nowT name firstTaskText dueDate w) in
  settings w' = settings w /\
  length (saved w') = 2 + length (saved w).
Proof.
  intros E w'. split; [|reflexivity].
  unfold w', TasksView.deleteCategory, Plugin.addCategory. clear w'.
  revert E. generalize (toString nowC). intros i E.
  cbn. rewrite filter_app, (filter_negb_existsb _ _ E).
  destruct (truthy firstTaskText); cbn; unfold hasId; cbn;
    rewrite String.eqb_refl; cbn; rewrite app_nil_r;
    destruct (settings w); reflexivity.
Qed.

Lemma addCategory_then_deleteCategory_witness :
  existsb (hasId (toString 7)) (categories (settings sample)) = false /\
  settings (TasksView.deleteCategory (toString 7)
              (Plugin.addCategory 7 7 "Later" "x" None sample)) = settings sample.
Proof.
  split; [reflexivity|].
  exact (proj1 (addCategory_then_deleteCategory 7 7 "Later" "x" None sample eq_refl)).
Defined.

Section UpdateFirstApp.

Context {A : Type}.
Variable p : A -> bool.
Variable f : A -> A.

Lemma find_app_none (l1 l2 : list A) :
  existsb p l1 = false -> find p (l1 ++ l2) = find p l2.
Proof.
  induction l1 as [|x r IH]; simpl; [reflexivity|].
  intros H. apply orb_false_iff in H. destruct H as [Hx Hr].
  rewrite Hx. apply IH. exact Hr.
Qed.

Lemma find_app_some (l1 l2 : list A) (c : A) :
  find p l1 = Some c -> find p (l1 ++ l2) = Some c.
Proof.
  induction l1 as [|x r IH]; simpl; [discriminate|].
  destruct (p x); [trivial|exact IH].
Qed.

Lemma update_first_app_none (l1 l2 : list A) :
  existsb p l1 = false -> update_first p f (l1 ++ l2) = l1 ++ update_first p f l2.
Proof.
  induction l1 as [|x r IH]; simpl; [reflexivity|].
  intros H. apply orb_false_iff in H. destruct H as [Hx Hr].
  rewrite Hx, (IH Hr). reflexivity.
Qed.

Lemma update_first_app_some (l1 l2 : list A) (c : A) :
  find p l1 = Some c -> update_first p f (l1 ++ l2) = update_first p f l1 ++ l2.
Proof.
  induction l1 as [|x r IH]; simpl; [discriminate|].
  destruct (p x); [reflexivity|].
  intros F. rewrite (IH F). reflexivity.
Qed.

Lemma Forall_false_existsb (l : list A) :
  Forall (fun x => p x = false) l <-> existsb p l = false.
Proof.
  induction l as [|x r IH]; simpl.
  - split; [reflexivity|constructor].
  - rewrite orb_false_iff, <- IH. split.
    + intros H. inversion H; subst. split; assumption.
    + intros [Hx Hr]. constructor; assumption.
Qed.

End UpdateFirstApp.

(** X6.  [addTask] on an id that is in the document puts one task, not completed,
    with the text and the date given and the clock reading as its id, behind
    the tasks of the first category that has the id.  Nothing else changes:
    not the categories before it, none of which has the id, not those after
    it, not the other fields of the category, not the settings. *)
Theorem addTask_appends (now : Z) (categoryId text : string) (dueDate : option string)
    (w : World) (category : Category.t) :
  find (hasId categoryId) (categories (settings w)) = Some category ->
  let s' := settings (TasksView.addTask now categoryId text dueDate w) in
  confirmTaskDeletion s' = confirmTaskDeletion (settings w) /\
  dateFormat s' = dateFormat (settings w) /\
  exists pre post category',
    categories (settings w) = pre ++ category :: post /\
    categories s' = pre ++ category' :: post /\
    Forall (fun c => Category.id c <> categoryId) pre /\
    sameHeader category category' /\
    Category.lastSortOrder category' = Category.lastSortOrder category /\
    Category.tasks category'
      = Category.tasks category ++ [Task.mk (toString now) text false dueDate].
Proof.
  intros F s'. unfold s', TasksView.addTask. rewrite F. cbn.
  split; [reflexivity|]. split; [reflexivity|].
  destruct (update_first_split (hasId categoryId)
              (fun c => Category.set_tasks
                          (Category.tasks c ++ [Task.mk (toString now) text false dueDate]) c)
              _ _ F) as (pre & post & E & N & _ & U).
  exists pre, post. eexists. split; [exact E|]. split; [exact U|].
  split.
  - eapply Forall_impl; [|exact N]. intros c Hc. apply hasId_false. exact Hc.
  - cbn. repeat split.
Qed.

Lemma addTask_appends_witness :
  find (hasId "2") (categories (settings sample)) = Some home /\
  map Task.text
    (flat_map Category.tasks
       (categories (settings (TasksView.addTask 9 "2" "E" None sample))))
    = ["A"; "B"; "C"; "D"; "B"; "E"]%string /\
  dateFormat (settings (TasksView.addTask 9 "2" "E" None sample))
    = dateFormat (settings sample).
Proof.
  split; [reflexivity|]. split; [reflexivity|].
  exact (proj1 (proj2 (addTask_appends 9 "2" "E" None sample home eq_refl))).
Defined.

(** X7.  A task that was added is gone again, and the document is what it was,
    once it is deleted by the id it got, as long as no task of that category
    had the id before (one that had it is deleted with it). *)
Theorem addTask_then_deleteTask (now : Z) (categoryId text : string)
    (dueDate : option string) (w : World) (category : Category.t) :
  find (hasId categoryId) (categories (settings w)) = Some category ->
  existsb (hasTaskId (toString now)) (Category.tasks category) = false ->
  settings (TasksView.deleteTask categoryId (toString now)
              (TasksView.addTask now categoryId text dueDate w))
  = settings w.
Proof.
  intros F E. unfold TasksView.addTask. rewrite F.
  set (f := fun c => Category.set_tasks
                       (Category.tasks c ++ [Task.mk (toString now) text false dueDate]) c).
  assert (G : find (hasId categoryId)
                (update_first (hasId categoryId) f (categories (settings w)))
              = Some (f category)).
  { apply find_update_first; [reflexivity|exact F]. }
  unfold TasksView.deleteTask.
  cbn [settings Plugin.saveSettings with_categories categories set_categories].
  rewrite G.
  cbn [settings Plugin.saveSettings with_categories categories set_categories
       confirmTaskDeletion dateFormat].
  rewrite update_first_compose by reflexivity.
  rewrite (update_first_same _ _ _ category F).
  - destruct (settings w); reflexivity.
  - unfold f. cbn. rewrite filter_app, (filter_negb_existsb _ _ E). cbn.
    unfold hasTaskId. cbn. rewrite String.eqb_refl. cbn.
    rewrite app_nil_r. clear. destruct category; reflexivity.
Qed.

Lemma addTask_then_deleteTask_witness :
  find (hasId "1") (categories (settings sample)) = Some work /\
  existsb (hasTaskId (toString 9)) (Category.tasks work) = false /\
  settings (TasksView.deleteTask "1" (toString 9) (TasksView.addTask 9 "1" "E" None sample))
  = settings sample.
Proof.
  split; [reflexivity|]. split; [reflexivity|].
  exact (addTask_then_deleteTask 9 "1" "E" None sample work eq_refl eq_refl).
Defined.

(** X8.  [deleteTask] on an id of a category that is in the document takes out of
    the first category with that id every task with the task id, also when
    several have it, and keeps the other tasks in their order.  The other
    categories are not touched, even those with the same id. *)
Theorem deleteTask_removes_all (categoryId taskId : string) (w : World)
    (category : Category.t) :
  find (hasId categoryId) (categories (settings w)) = Some category ->
  exists pre post category',
    categories (settings w) = pre ++ category :: post /\
    categories (settings (TasksView.deleteTask categoryId taskId w))
      = pre ++ category' :: post /\
    sameHeader category category' /\
    Category.lastSortOrder category' = Category.lastSortOrder category /\
    existsb (hasTaskId taskId) (Category.tasks category') = false /\
    (forall k, In k (Category.tasks category') <->
               In k (Category.tasks category) /\ Task.id k <> taskId) /\
    Subseq (Category.tasks category') (Category.tasks category).
Proof.
  intros F. unfold TasksView.deleteTask. rewrite F. cbn.
  destruct (update_first_split (hasId categoryId)
              (fun c => Category.set_tasks
                          (filter (fun k => negb (hasTaskId taskId k)) (Category.tasks c)) c)
              _ _ F) as (pre & post & E & _ & _ & U).
  exists pre, post. eexists. split; [exact E|]. split; [exact U|]. cbn.
  split; [repeat split|]. split; [reflexivity|].
  split; [apply existsb_filter_negb|]. split.
  - intros k. rewrite filter_In, negb_true_iff, hasTaskId_false. tauto.
  - apply filter_Subseq.
Qed.

Lemma deleteTask_removes_all_witness :
  find (hasId "2") (categories (settings sample)) = Some home /\
  map (fun c => map Task.id (Category.tasks c))
    (categories (settings (TasksView.deleteTask "2" "b" sample)))
    = [["a"; "b"; "c"]; ["d"]]%string /\
  exists pre post category',
    categories (settings sample) = pre ++ home :: post /\
    categories (settings (TasksView.deleteTask "2" "b" sample))
      = pre ++ category' :: post.
Proof.
  split; [reflexivity|]. split; [reflexivity|].
  destruct (deleteTask_removes_all "2" "b" sample home eq_refl)
    as (pre & post & c' & E1 & E2 & _).
  exists pre, post, c'. split; [exact E1|exact E2].
Defined.

(** X9.  [toggleTask] on a task it finds writes the completed flag of one task:
    the first task with the task id in the first category with the category
    id.  That task keeps its id, text and date; a later task with the same id
    and every other task, category and setting are what they were. *)
Theorem toggleTask_first_only (categoryId taskId : string) (completed : bool)
    (w : World) (category : Category.t) (task : Task.t) :
  find (hasId categoryId) (categories (settings w)) = Some category ->
  find (hasTaskId taskId) (Category.tasks category) = Some task ->
  let s' := settings (TasksView.toggleTask categoryId taskId completed w) in
  confirmTaskDeletion s' = confirmTaskDeletion (settings w) /\
  dateFormat s' = dateFormat (settings w) /\
  exists pre post before after category' task',
    categories (settings w) = pre ++ category :: post /\
    Category.tasks category = before ++ task :: after /\
    Forall (fun k => Task.id k <> taskId) before /\
    categories s' = pre ++ category' :: post /\
    sameHeader category category' /\
    Category.lastSortOrder category' = Category.lastSortOrder category /\
    Category.tasks category' = before ++ task' :: after /\
    Task.completed task' = completed /\
    Task.id task' = Task.id task /\
    Task.text task' = Task.text task /\
    Task.dueDate task' = Task.dueDate task.
Proof.
  intros F G s'. unfold s', TasksView.toggleTask. rewrite F, G. cbn.
  split; [reflexivity|]. split; [reflexivity|].
  destruct (update_first_split (hasId categoryId)
              (fun c => Category.set_tasks
                          (update_first (hasTaskId taskId)
                             (Task.set_completed completed) (Category.tasks c)) c)
              _ _ F) as (pre & post & E & _ & _ & U).
  destruct (update_first_split (hasTaskId taskId) (Task.set_completed completed)
              _ _ G) as (before & after & E' & N & _ & U').
  exists pre, post, before, after. eexists. eexists.
  split; [exact E|]. split; [exact E'|]. split.
  { eapply Forall_impl; [|exact N]. intros k Hk. apply hasTaskId_false. exact Hk. }
  split; [exact U|]. cbn. split; [repeat split|]. split; [reflexivity|].
  split; [exact U'|]. repeat split.
Qed.

Lemma toggleTask_first_only_witness :
  find (hasId "1") (categories (settings sample)) = Some work /\
  find (hasTaskId "b") (Category.tasks work) = Some taskB /\
  map (fun c => map Task.completed (Category.tasks c))
    (categories (settings (TasksView.toggleTask "1" "b" true sample)))
    = [[false; true; false]; [true; false]] /\
  dateFormat (settings (TasksView.toggleTask "1" "b" true sample))
    = dateFormat (settings sample).
Proof.
  split; [reflexivity|]. split; [reflexivity|]. split; [reflexivity|].
  exact (proj1 (proj2 (toggleTask_first_only "1" "b" true sample work taskB
                         eq_refl eq_refl))).
Defined.

(** X10.  Of two [toggleTask] calls on the same ids the later one decides: the
    document after both is the document after the later one alone. *)
Theorem toggleTask_last_wins (categoryId taskId : string) (b b' : bool) (w : World) :
  settings (TasksView.toggleTask categoryId taskId b'
              (TasksView.toggleTask categoryId taskId b w))
  = settings (TasksView.toggleTask categoryId taskId b' w).
Proof.
  unfold TasksView.toggleTask at 2.
  destruct (find (hasId categoryId) (categories (settings w))) as [category|] eqn:F;
    [|reflexivity].
  destruct (find (hasTaskId taskId) (Category.tasks category)) as [task|] eqn:G;
    [|reflexivity].
  set (f := fun b0 c => Category.set_tasks
                          (update_first (hasTaskId taskId) (Task.set_completed b0)
                             (Category.tasks c)) c).
  change (settings
            (TasksView.toggleTask categoryId taskId b'
               (Plugin.saveSettings
                  (with_categories
                     (update_first (hasId categoryId) (f b) (categories (settings w))) w)))
          = settings (TasksView.toggleTask categoryId taskId b' w)).
  assert (F1 : find (hasId categoryId)
                 (update_first (hasId categoryId) (f b) (categories (settings w)))
               = Some (f b category)).
  { apply find_update_first; [reflexivity|exact F]. }
  assert (G1 : find (hasTaskId taskId) (Category.tasks (f b category))
               = Some (Task.set_completed b task)).
  { unfold f. cbn. apply find_update_first; [reflexivity|exact G]. }
  unfold TasksView.toggleTask.
  cbn [settings Plugin.saveSettings with_categories categories set_categories].
  rewrite F1, G1, F, G.
  cbn [settings Plugin.saveSettings with_categories categories set_categories
       confirmTaskDeletion dateFormat].
  fold (f b'). rewrite update_first_compose by reflexivity.
  rewrite (update_first_ext _ (fun x => f b' (f b x)) (f b')).
  - reflexivity.
  - intros x. unfold f, Category.set_tasks. cbn. f_equal.
    rewrite update_first_compose by reflexivity.
    apply update_first_ext. reflexivity.
Qed.

(** X11.  [cleanCompletedTasks] run again right away finds nothing to remove: the
    document stays as the first run left it (and is saved once more). *)
Theorem cleanCompletedTasks_twice (w : World) :
  settings (TasksView.cleanCompletedTasks (TasksView.cleanCompletedTasks w))
  = settings (TasksView.cleanCompletedTasks w) /\
  length (saved (TasksView.cleanCompletedTasks (TasksView.cleanCompletedTasks w)))
  = 2 + length (saved w).
Proof.
  split; [|reflexivity].
  unfold TasksView.cleanCompletedTasks. cbn. unfold set_categories. cbn.
  f_equal. rewrite map_map. apply map_ext. intros c. cbn.
  rewrite filter_filter_same. reflexivity.
Qed.

(** X12.  A task added to the id of a category that was just created goes to that
    category when the id is new in the document.  When an older category has
    the same id, the task goes to the older one and the new category stays as
    it was created. *)
Theorem addCategory_then_addTask
    (nowC nowT now : Z) (name firstTaskText text : string) (dueDate due : option string)
    (w : World) :
  let w1 := Plugin.addCategory nowC nowT name firstTaskText dueDate w in
  let w2 := TasksView.addTask now (toString nowC) text due w1 in
  let added := Task.mk (toString now) text false due in
  exists created,
    categories (settings w1) = categories (settings w) ++ [created] /\
    (existsb (hasId (toString nowC)) (categories (settings w)) = false ->
       categories (settings w2)
       = categories (settings w) ++
           [Category.set_tasks (Category.tasks created ++ [added]) created]) /\
    (forall older,
       find (hasId (toString nowC)) (categories (settings w)) = Some older ->
       exists pre post,
         categories (settings w) = pre ++ older :: post /\
         categories (settings w2)
         = pre ++ Category.set_tasks (Category.tasks older ++ [added]) older
               :: post ++ [created]).
Proof.
  intros w1 w2 added.
  assert (C : exists created,
             categories (settings w1) = categories (settings w) ++ [created] /\
             hasId (toString nowC) created = true).
  { unfold w1, Plugin.addCategory. cbn. eexists. split; [reflexivity|].
    unfold hasId. destruct (truthy firstTaskText); cbn; apply String.eqb_refl. }
  destruct C as (created & E1 & Hc). exists created. split; [exact E1|].
  unfold w2, TasksView.addTask. clearbody w1. rewrite E1. split.
  - intros N. rewrite (find_app_none _ _ _ N). cbn [find]. rewrite Hc.
    cbn [settings Plugin.saveSettings with_categories categories set_categories].
    rewrite (update_first_app_none _ _ _ _ N). cbn [update_first]. rewrite Hc.
    reflexivity.
  - intros older F. rewrite (find_app_some _ _ _ _ F).
    cbn [settings Plugin.saveSettings with_categories categories set_categories].
    rewrite (update_first_app_some _ _ _ _ _ F).
    destruct (update_first_split (hasId (toString nowC))
                (fun c => Category.set_tasks (Category.tasks c ++ [added]) c)
                _ _ F) as (pre & post & E & _ & _ & U).
    exists pre, post. split; [exact E|].
    fold added. rewrite U, <- app_assoc. reflexivity.
Qed.

Lemma addCategory_then_addTask_witness :
  existsb (hasId (toString 7)) (categories (settings sample)) = false /\
  find (hasId (toString 1)) (categories (settings sample)) = Some work /\
  map (fun c => map Task.text (Category.tasks c))
    (categories (settings (TasksView.addTask 8 (toString 7) "y" None
                             (Plugin.addCategory 7 7 "Later" "x" None sample))))
    = [["A"; "B"; "C"]; ["D"; "B"]; ["x"; "y"]]%string /\
  map (fun c => map Task.text (Category.tasks c))
    (categories (settings (TasksView.addTask 8 (toString 1) "y" None
                             (Plugin.addCategory 1 1 "Later" "x" None sample))))
    = [["A"; "B"; "C"; "y"]; ["D"; "B"]; ["x"]]%string.
Proof.
  split; [reflexivity|]. split; [reflexivity|].
  destruct (addCategory_then_addTask 7 7 8 "Later" "x" "y" None None sample)
    as (c1 & E1 & Fresh & _).
  destruct (addCategory_then_addTask 1 1 8 "Later" "x" "y" None None sample)
    as (c2 & E2 & _ & Old).
  destruct (Old work eq_refl) as (pre & post & _ & R2).
  split.
  - rewrite (Fresh eq_refl). injection E1 as <-. reflexivity.
  - reflexivity.
Defined.

(** ** Sorting again *)

Section SortingAgain.

Variable todayStr : string.

Lemma dueOn_cons (d : string) (x : Task.t) (l : list Task.t) :
  dueOn todayStr d (x :: l)
  = if String.eqb (effectiveDate todayStr x) d
    then x :: dueOn todayStr d l else dueOn todayStr d l.
Proof. reflexivity. Qed.

Lemma dueOn_In (d : string) (x : Task.t) (l : list Task.t) :
  In x (dueOn todayStr d l) -> In x l.
Proof. unfold dueOn. rewrite filter_In. tauto. Qed.

Lemma inOrder_antisym (o : SortOrder) (a b : string) :
  inOrder o a b -> inOrder o b a -> a = b.
Proof.
  destruct o; simpl; intros H1 H2.
  - apply String.leb_antisym; assumption.
  - apply String.leb_antisym; assumption.
Qed.

(** A list in the order of a direction is known from the tasks of each date
    in their order: there is one stable sort. *)
Lemma sorted_stable_unique (o : SortOrder) (l1 l2 : list Task.t) :
  StronglySorted
    (fun a b => inOrder o (effectiveDate todayStr a) (effectiveDate todayStr b)) l1 ->
  StronglySorted
    (fun a b => inOrder o (effectiveDate todayStr a) (effectiveDate todayStr b)) l2 ->
  (forall d, dueOn todayStr d l1 = dueOn todayStr d l2) ->
  l1 = l2.
Proof.
  revert l2. induction l1 as [|x r1 IH]; intros [|y r2] S1 S2 H.
  - reflexivity.
  - specialize (H (effectiveDate todayStr y)). rewrite dueOn_cons, String.eqb_refl in H.
    discriminate.
  - specialize (H (effectiveDate todayStr x)). rewrite dueOn_cons, String.eqb_refl in H.
    discriminate.
  - inversion S1 as [|x' r1' S1' F1]; subst. inversion S2 as [|y' r2' S2' F2]; subst.
    assert (E : effectiveDate todayStr x = effectiveDate todayStr y).
    { destruct (String.eqb (effectiveDate todayStr y) (effectiveDate todayStr x)) eqn:Q.
      - apply String.eqb_eq in Q. congruence.
      - pose proof (H (effectiveDate todayStr x)) as Hx.
        rewrite !dueOn_cons, String.eqb_refl, Q in Hx.
        pose proof (H (effectiveDate todayStr y)) as Hy.
        rewrite !dueOn_cons, String.eqb_refl in Hy.
        rewrite String.eqb_sym, Q in Hy.
        assert (Ix : In x r2).
        { apply dueOn_In with (effectiveDate todayStr x). rewrite <- Hx. left. reflexivity. }
        assert (Iy : In y r1).
        { apply dueOn_In with (effectiveDate todayStr y). rewrite Hy. left. reflexivity. }
        rewrite Forall_forall in F1, F2.
        apply (inOrder_antisym o); [apply F1; exact Iy|apply F2; exact Ix]. }
    pose proof (H (effectiveDate todayStr x)) as Hx.
    rewrite !dueOn_cons, <- E, String.eqb_refl in Hx.
    injection Hx as <- Hx.
    f_equal. apply IH; try assumption.
    intros d. specialize (H d). rewrite !dueOn_cons in H.
    destruct (String.eqb (effectiveDate todayStr x) d); [|exact H].
    injection H as H. exact H.
Qed.

(** Sorting a sorted array again, in either direction, gives what sorting
    the array it came from gives. *)
Lemma Array_sort_absorbs (o o' : SortOrder) (l : list Task.t) :
  Array_sort (TasksView.compareTasks o todayStr)
    (Array_sort (TasksView.compareTasks o' todayStr) l)
  = Array_sort (TasksView.compareTasks o todayStr) l.
Proof.
  apply (sorted_stable_unique o).
  - apply Array_sort_sorted.
  - apply Array_sort_sorted.
  - intros d. rewrite !Array_sort_stable. reflexivity.
Qed.

Lemma Array_sort_sorted_same (o : SortOrder) (l : list Task.t) :
  StronglySorted
    (fun a b => inOrder o (effectiveDate todayStr a) (effectiveDate todayStr b)) l ->
  Array_sort (TasksView.compareTasks o todayStr) l = l.
Proof.
  intros S. apply (sorted_stable_unique o).
  - apply Array_sort_sorted.
  - exact S.
  - intros d. apply Array_sort_stable.
Qed.

End SortingAgain.

Lemma update_first_missing (A : Type) (p : A -> bool) (f : A -> A) (l : list A) :
  find p l = None -> update_first p f l = l.
Proof.
  induction l as [|x r IH]; simpl; [reflexivity|].
  destruct (p x); [discriminate|].
  intros H. rewrite (IH H). reflexivity.
Qed.

Lemma sortCategoryTasks_settings (todayStr categoryId : string) (w : World) :
  settings (TasksView.sortCategoryTasks todayStr categoryId w)
  = set_categories
      (update_first (hasId categoryId) (TasksView.sorted_category todayStr)
         (categories (settings w)))
      (settings w).
Proof.
  unfold TasksView.sortCategoryTasks.
  destruct (find (hasId categoryId) (categories (settings w))) eqn:F; [reflexivity|].
  rewrite (update_first_missing _ _ _ _ F). symmetry. apply set_categories_same.
Qed.

Lemma sorted_category_thrice (todayStr : string) (c : Category.t) :
  TasksView.sorted_category todayStr
    (TasksView.sorted_category todayStr (TasksView.sorted_category todayStr c))
  = TasksView.sorted_category todayStr c.
Proof.
  destruct c as [i n ts ic col [[|]|]];
    unfold TasksView.sorted_category, TasksView.currentOrder;
    cbn [Category.lastSortOrder Category.tasks Category.set_lastSortOrder
         Category.set_tasks Category.id Category.name Category.isCollapsed
         Category.color TasksView.flip];
    rewrite !Array_sort_absorbs; reflexivity.
Qed.

(** X13.  With the same date for today, the third sort of a category gives the
    document the first one gave: the order of the tasks and the direction
    come back every second call. *)
Theorem sortCategoryTasks_thrice (todayStr categoryId : string) (w : World) :
  settings (TasksView.sortCategoryTasks todayStr categoryId
              (TasksView.sortCategoryTasks todayStr categoryId
                 (TasksView.sortCategoryTasks todayStr categoryId w)))
  = settings (TasksView.sortCategoryTasks todayStr categoryId w).
Proof.
  rewrite !sortCategoryTasks_settings. unfold set_categories. cbn.
  f_equal.
  rewrite !update_first_compose by reflexivity.
  apply update_first_ext. intros c. apply sorted_category_thrice.
Qed.

(** X14.  Two sorts of a category go in opposite directions, the first one against
    the direction recorded ([desc] when none is), and each tells the user its
    direction; after the two the direction recorded is the one taken at the
    start, and the tasks are in its order, whatever the dates for today were. *)
Theorem sortCategoryTasks_alternates (today1 today2 categoryId : string) (w : World)
    (category : Category.t) :
  find (hasId categoryId) (categories (settings w)) = Some category ->
  let w1 := TasksView.sortCategoryTasks today1 categoryId w in
  let w2 := TasksView.sortCategoryTasks today2 categoryId w1 in
  let was := TasksView.currentOrder category in
  exists category1 category2,
    find (hasId categoryId) (categories (settings w1)) = Some category1 /\
    find (hasId categoryId) (categories (settings w2)) = Some category2 /\
    Category.lastSortOrder category1 = Some (TasksView.flip was) /\
    Category.lastSortOrder category2 = Some was /\
    StronglySorted
      (fun a b => inOrder was (effectiveDate today2 a) (effectiveDate today2 b))
      (Category.tasks category2) /\
    Permutation (Category.tasks category) (Category.tasks category2) /\
    notices w2
    = ("Sorted tasks " ++ TasksView.orderName was)%string
      :: ("Sorted tasks " ++ TasksView.orderName (TasksView.flip was))%string
      :: notices w.
Proof.
  intros F w1 w2 was.
  set (c1 := TasksView.sorted_category today1 category).
  set (c2 := TasksView.sorted_category today2 c1).
  assert (F1 : find (hasId categoryId) (categories (settings w1)) = Some c1).
  { unfold w1. rewrite sortCategoryTasks_settings. cbn.
    apply find_update_first; [reflexivity|exact F]. }
  assert (F2 : find (hasId categoryId) (categories (settings w2)) = Some c2).
  { unfold w2. rewrite sortCategoryTasks_settings. cbn.
    apply find_update_first; [reflexivity|exact F1]. }
  assert (O1 : TasksView.currentOrder c1 = TasksView.flip was) by reflexivity.
  assert (O2 : TasksView.flip (TasksView.currentOrder c1) = was).
  { rewrite O1. unfold was. destruct (TasksView.currentOrder category); reflexivity. }
  exists c1, c2. split; [exact F1|]. split; [exact F2|].
  split; [reflexivity|]. split; [|split; [|split]].
  - unfold c2, TasksView.sorted_category. cbn [Category.lastSortOrder
      Category.set_lastSortOrder]. rewrite O2. reflexivity.
  - unfold c2, TasksView.sorted_category. cbn [Category.tasks Category.set_tasks
      Category.set_lastSortOrder]. rewrite O2. apply Array_sort_sorted.
  - apply perm_trans with (Category.tasks c1).
    + unfold c1, TasksView.sorted_category. cbn. apply Array_sort_perm.
    + unfold c2, TasksView.sorted_category. cbn. apply Array_sort_perm.
  - unfold w2, TasksView.sortCategoryTasks at 1. rewrite F1.
    cbn [notices Notice Plugin.saveSettings with_categories]. rewrite O2.
    unfold w1, TasksView.sortCategoryTasks. rewrite F. reflexivity.
Qed.

Lemma sortCategoryTasks_alternates_witness :
  find (hasId "2") (categories (settings sample)) = Some home /\
  notices (TasksView.sortCategoryTasks jan2 "2" (TasksView.sortCategoryTasks jan1 "2" sample))
  = ["Sorted tasks ascending"; "Sorted tasks descending"]%string.
Proof.
  split; [reflexivity|].
  destruct (sortCategoryTasks_alternates jan1 jan2 "2" sample home eq_refl)
    as (c1 & c2 & _ & _ & _ & _ & _ & _ & N).
  exact N.
Defined.

(** X15.  When the tasks of a category are already in the order of the direction
    the next sort takes, as they are when all of them have one effective
    date, the sort leaves their order alone and only records the direction. *)
Theorem sortCategoryTasks_already_sorted (todayStr categoryId : string) (w : World)
    (category : Category.t) :
  find (hasId categoryId) (categories (settings w)) = Some category ->
  StronglySorted
    (fun a b => inOrder (TasksView.flip (TasksView.currentOrder category))
                  (effectiveDate todayStr a) (effectiveDate todayStr b))
    (Category.tasks category) ->
  exists pre post,
    categories (settings w) = pre ++ category :: post /\
    categories (settings (TasksView.sortCategoryTasks todayStr categoryId w))
    = pre ++ Category.set_lastSortOrder (TasksView.flip (TasksView.currentOrder category))
               category :: post.
Proof.
  intros F S. rewrite sortCategoryTasks_settings. cbn.
  destruct (update_first_split (hasId categoryId) (TasksView.sorted_category todayStr)
              _ _ F) as (pre & post & E & _ & _ & U).
  exists pre, post. split; [exact E|]. rewrite U.
  unfold TasksView.sorted_category. rewrite (Array_sort_sorted_same _ _ _ S).
  rewrite set_tasks_same. reflexivity.
Qed.

Lemma same_date_sorted (todayStr : string) (o : SortOrder) (l : list Task.t) :
  (forall a b, In a l -> In b l -> effectiveDate todayStr a = effectiveDate todayStr b) ->
  StronglySorted
    (fun a b => inOrder o (effectiveDate todayStr a) (effectiveDate todayStr b)) l.
Proof.
  induction l as [|x r IH]; intros H; constructor.
  - apply IH. intros a b Ha Hb. apply H; right; assumption.
  - apply Forall_forall. intros y Hy.
    rewrite (H x y (or_introl eq_refl) (or_intror Hy)). apply inOrder_refl.
Qed.

Lemma sortCategoryTasks_already_sorted_witness :
  find (hasId "1") (categories (settings (with_categories [Category.set_tasks [taskA; taskC] work] sample)))
    = Some (Category.set_tasks [taskA; taskC] work) /\
  map Task.id
    (flat_map Category.tasks
       (categories
          (settings
             (TasksView.sortCategoryTasks jan2 "1"
                (with_categories [Category.set_tasks [taskA; taskC] work] sample)))))
  = ["a"; "c"]%string.
Proof.
  split; [reflexivity|].
  assert (S : StronglySorted
                (fun a b => inOrder
                              (TasksView.flip
                                 (TasksView.currentOrder (Category.set_tasks [taskA; taskC] work)))
                              (effectiveDate jan2 a) (effectiveDate jan2 b))
                (Category.tasks (Category.set_tasks [taskA; taskC] work))).
  { apply same_date_sorted. simpl.
    intros a b [<-|[<-|[]]] [<-|[<-|[]]]; reflexivity. }
  destruct (sortCategoryTasks_already_sorted jan2 "1"
              (with_categories [Category.set_tasks [taskA; taskC] work] sample)
              (Category.set_tasks [taskA; taskC] work) eq_refl S)
    as (pre & post & E1 & E2).
  rewrite E2. destruct pre as [|c0 pre]; [|destruct pre; discriminate].
  injection E1 as <-. reflexivity.
Defined.

(** ** [toggleAllCategories] again *)

Lemma anyOpen_after_set (b : bool) (l : list Category.t) :
  existsb (fun c => negb (truthy_flag (Category.isCollapsed c)))
    (map (Category.set_isCollapsed b) l)
  = match l with
    | [] => false
    | _ :: _ => negb b
    end.
Proof.
  induction l as [|c r IH]; cbn; [reflexivity|].
  rewrite IH. destruct r; destruct b; reflexivity.
Qed.

Lemma set_isCollapsed_twice (b b' : bool) (l : list Category.t) :
  map (Category.set_isCollapsed b') (map (Category.set_isCollapsed b) l)
  = map (Category.set_isCollapsed b') l.
Proof. rewrite map_map. apply map_ext. reflexivity. Qed.

(** X16.  [toggleAllCategories] called a second time does not bring mixed flags
    back: with a category expanded at the start, two calls leave every
    category expanded; with all collapsed at the start, two calls leave all
    collapsed.  The third call gives the document the first one gave. *)
Theorem toggleAllCategories_again (w : World) :
  let T := TasksView.toggleAllCategories in
  let anyOpen := existsb expanded (categories (settings w)) in
  (forall c, In c (categories (settings (T (T w)))) ->
             Category.isCollapsed c = Some (negb anyOpen)) /\
  settings (T (T (T w))) = settings (T w).
Proof.
  intros T anyOpen. unfold T, TasksView.toggleAllCategories. cbn.
  change (fun c => negb (truthy_flag (Category.isCollapsed c))) with expanded.
  fold anyOpen. unfold expanded at 1 2 3.
  rewrite !anyOpen_after_set, !set_isCollapsed_twice.
  destruct (categories (settings w)) as [|c r] eqn:E.
  - split; [intros c []|reflexivity].
  - rewrite negb_involutive. split; [|reflexivity].
    intros c' Hc. apply in_map_iff in Hc. destruct Hc as (c0 & <- & _). reflexivity.
Qed.

(** ** [reorderCategories] with any indices *)

Lemma reorder_slots_actual (A : Type) (fromIndex toIndex : Z) (l : list A) :
  actualStart fromIndex (length l) < length l ->
  TasksView.reorder_slots fromIndex toIndex l
  = map Some (list_move (actualStart fromIndex (length l))
                (actualStart toIndex (length l - 1)) l).
Proof.
  intros Hs. unfold TasksView.reorder_slots, splice.
  set (s := actualStart fromIndex (length l)) in *.
  replace (Nat.min 1 (length l - s)) with 1 by lia.
  rewrite hd_error_firstn_skipn. simpl app.
  replace (s + 1) with (S s) by lia. fold (remove_at s l).
  unfold list_move.
  destruct (nth_error l s) as [x|] eqn:E.
  2:{ apply nth_error_None in E. lia. }
  cbn [snd]. rewrite length_map.
  assert (Hr : length (remove_at s l) = length l - 1).
  { pose proof (length_remove_at s l Hs). lia. }
  rewrite Hr. rewrite Nat.add_0_r.
  unfold insert_at. rewrite map_app. simpl.
  rewrite firstn_map, skipn_map. reflexivity.
Qed.


Lemma reorderCategories_clamped (fromIndex toIndex : Z) (w : World) :
  let n := Z.of_nat (length (categories (settings w))) in
  let i := if (fromIndex <? 0)%Z then Z.max (n + fromIndex) 0 else fromIndex in
  let j := if (toIndex <? 0)%Z then Z.max (n - 1 + toIndex) 0
           else Z.min toIndex (n - 1) in
  (0 < n)%Z -> (fromIndex < n)%Z ->
  (0 <= i < n)%Z /\ (0 <= j < n)%Z /\
  exists w',
    TasksView.reorderCategories fromIndex toIndex w = Reordered w' /\
    categories (settings w')
      = list_move (Z.to_nat i) (Z.to_nat j) (categories (settings w)) /\
    Permutation (categories (settings w)) (categories (settings w')) /\
    saved w' = settings w' :: saved w.
Proof.
  intros n i j Hn Hf.
  assert (Hi : (0 <= i < n)%Z).
  { unfold i. destruct (Z.ltb_spec fromIndex 0); lia. }
  assert (Hj : (0 <= j < n)%Z).
  { unfold j. destruct (Z.ltb_spec toIndex 0); lia. }
  split; [exact Hi|]. split; [exact Hj|].
  assert (Ei : actualStart fromIndex (length (categories (settings w))) = Z.to_nat i).
  { unfold actualStart, i. fold n. destruct (Z.ltb_spec fromIndex 0); [reflexivity|].
    f_equal. lia. }
  assert (Ej : actualStart toIndex (length (categories (settings w)) - 1) = Z.to_nat j).
  { unfold actualStart, j.
    replace (Z.of_nat (length (categories (settings w)) - 1)) with (n - 1)%Z by lia.
    destruct (toIndex <? 0)%Z; reflexivity. }
  assert (R : TasksView.reorder_slots fromIndex toIndex (categories (settings w))
              = map Some (list_move (Z.to_nat i) (Z.to_nat j) (categories (settings w)))).
  { rewrite reorder_slots_actual by lia. rewrite Ei, Ej. reflexivity. }
  unfold TasksView.reorderCategories. rewrite R, defined_map_Some.
  eexists. split; [reflexivity|]. cbn. split; [reflexivity|]. split; [|reflexivity].
  apply reorder_slots_defined with fromIndex toIndex.
  rewrite R. apply defined_map_Some.
Qed.

(** X17.  [reorderCategories] takes every pair of numbers.  As long as the array
    is not empty and [fromIndex] is below its length, it is a move of one
    category and loses none: a negative [fromIndex] counts from the end (and
    stops at the first place), a [toIndex] behind the last place means the
    last place, a negative one counts from the end of the array without the
    category taken out. *)
Theorem reorderCategories_any_index (fromIndex toIndex : Z) (w : World) :
  let n := Z.of_nat (length (categories (settings w))) in
  let i := if (fromIndex <? 0)%Z then Z.max (n + fromIndex) 0 else fromIndex in
  let j := if (toIndex <? 0)%Z then Z.max (n - 1 + toIndex) 0
           else Z.min toIndex (n - 1) in
  (0 < n)%Z -> (fromIndex < n)%Z ->
  (0 <= i < n)%Z /\ (0 <= j < n)%Z /\
  exists w',
    TasksView.reorderCategories fromIndex toIndex w = Reordered w' /\
    categories (settings w')
      = list_move (Z.to_nat i) (Z.to_nat j) (categories (settings w)) /\
    Permutation (categories (settings w)) (categories (settings w')) /\
    saved w' = settings w' :: saved w.
Proof.
  intros n i j Hn Hf. exact (reorderCategories_clamped fromIndex toIndex w Hn Hf).
Qed.

Lemma reorderCategories_any_index_witness :
  (0 < Z.of_nat (length (categories (settings sample))))%Z /\
  (-1 < Z.of_nat (length (categories (settings sample))))%Z /\
  exists w',
    TasksView.reorderCategories (-1) 5 sample = Reordered w' /\
    categories (settings w') = list_move 1 1 (categories (settings sample)).
Proof.
  assert (H0 : (0 < Z.of_nat (length (categories (settings sample))))%Z) by (simpl; lia).
  assert (H1 : (-1 < Z.of_nat (length (categories (settings sample))))%Z) by (simpl; lia).
  split; [exact H0|]. split; [exact H1|].
  destruct (reorderCategories_any_index (-1) 5 sample H0 H1) as (_ & _ & w' & R & M & _).
  exists w'. split; [exact R|exact M].
Defined.


(** ** Identifiers made from different clock readings *)

Lemma distinct_readings_unique_ids_witness :
  runAll next_tick (initial true)
    = Some (TasksView.addTask 1002 "1000" "c" None
              (TasksView.addTask 1001 "1000" "b" None
                 (Plugin.addCategory 1000 1000 "Work" "a" None (initial true)))) /\
  NoDup (flat_map categoryReadings next_tick) /\
  NoDup (flat_map taskReadings next_tick) /\
  UniqueIds
    (settings (TasksView.addTask 1002 "1000" "c" None
                 (TasksView.addTask 1001 "1000" "b" None
                    (Plugin.addCategory 1000 1000 "Work" "a" None (initial true))))).
Proof.
  assert (R : runAll next_tick (initial true)
              = Some (TasksView.addTask 1002 "1000" "c" None
                        (TasksView.addTask 1001 "1000" "b" None
                           (Plugin.addCategory 1000 1000 "Work" "a" None (initial true)))))
    by reflexivity.
  assert (Nc : NoDup (flat_map categoryReadings next_tick)).
  { simpl. constructor; [intros []|constructor]. }
  assert (Nt : NoDup (flat_map taskReadings next_tick)).
  { simpl. repeat constructor; simpl; intuition discriminate. }
  split; [exact R|]. split; [exact Nc|]. split; [exact Nt|].
  exact (distinct_readings_unique_ids next_tick true _ R Nc Nt).
Defined.

(** ** The edit handlers *)

Lemma trimStart_first (s : string) (c : ascii) :
  firstChar (trimStart s) = Some c -> isWhiteSpace c = false.
Proof.
  induction s as [|a r IH]; simpl; [discriminate|].
  destruct (isWhiteSpace a) eqn:W; [exact IH|].
  simpl. intros [= <-]. exact W.
Qed.

Lemma trimEnd_first (s : string) (c : ascii) :
  firstChar (trimEnd s) = Some c -> firstChar s = Some c.
Proof.
  destruct s as [|a r]; simpl; [discriminate|].
  destruct (trimEnd r); [destruct (isWhiteSpace a)|]; simpl; trivial. discriminate.
Qed.

Lemma trimEnd_last (s : string) (c : ascii) :
  lastChar (trimEnd s) = Some c -> isWhiteSpace c = false.
Proof.
  induction s as [|a r IH]; simpl; [discriminate|].
  destruct (trimEnd r) as [|b r'] eqn:E.
  - destruct (isWhiteSpace a) eqn:W; simpl; [discriminate|].
    intros [= <-]. exact W.
  - exact IH.
Qed.

Lemma trim_trimmed (s : string) : trimmed (trim s).
Proof.
  unfold trimmed, trim. split; intros c H.
  - apply trimEnd_first in H. exact (trimStart_first s c H).
  - exact (trimEnd_last (trimStart s) c H).
Qed.

Lemma makeEditable_save_cases (inputValue : string) :
  (trim inputValue = EmptyString /\ TasksView.makeEditable_save inputValue = None) \/
  (trim inputValue <> EmptyString /\
   truthy (trim inputValue) = true /\
   TasksView.makeEditable_save inputValue = Some (trim inputValue)).
Proof.
  unfold TasksView.makeEditable_save.
  destruct (truthy (trim inputValue)) eqn:T; cbn.
  - right. split; [apply truthy_nonempty; exact T|]. split; reflexivity.
  - left. split; [|reflexivity].
    unfold truthy in T. apply negb_false_iff, String.eqb_eq in T. exact T.
Qed.

(** X20.  An edit of the title of a category is written and saved exactly when the
    text typed, without the white space around it, is not empty and is not
    the name the category has.  The name written is that text, so a name that
    is written is never empty and never begins or ends with white space; the
    rest of the category is not touched. *)
Theorem titleEdited_writes (inputValue : string) (category : Category.t) :
  (TasksView.titleEdited inputValue category = None <->
     trim inputValue = EmptyString \/ trim inputValue = Category.name category) /\
  (forall category',
     TasksView.titleEdited inputValue category = Some category' ->
     Category.name category' = trim inputValue /\
     Category.name category' <> EmptyString /\
     Category.name category' <> Category.name category /\
     trimmed (Category.name category') /\
     Category.id category' = Category.id category /\
     Category.tasks category' = Category.tasks category /\
     Category.isCollapsed category' = Category.isCollapsed category /\
     Category.color category' = Category.color category /\
     Category.lastSortOrder category' = Category.lastSortOrder category).
Proof.
  unfold TasksView.titleEdited.
  destruct (makeEditable_save_cases inputValue) as [[E ->]|(N & T & ->)].
  - split; [split; [left; exact E|reflexivity]|discriminate].
  - rewrite T. cbn [andb].
    destruct (String.eqb (trim inputValue) (Category.name category)) eqn:Q; cbn [negb].
    + apply String.eqb_eq in Q. split; [split; [right; exact Q|reflexivity]|discriminate].
    + apply String.eqb_neq in Q. split.
      * split; [discriminate|]. intros [H|H]; contradiction.
      * intros c' [= <-]. cbn. repeat split; try assumption; apply trim_trimmed.
Qed.

Lemma titleEdited_writes_witness :
  TasksView.titleEdited "  Job " work = Some (Category.set_name "Job" work) /\
  Category.name (Category.set_name "Job" work) = trim "  Job " /\
  TasksView.titleEdited " Work" work = None.
Proof.
  assert (H : TasksView.titleEdited "  Job " work = Some (Category.set_name "Job" work))
    by reflexivity.
  split; [exact H|]. split.
  - exact (proj1 (proj2 (titleEdited_writes "  Job " work) _ H)).
  - apply (proj1 (titleEdited_writes " Work" work)). right. reflexivity.
Defined.

(** X21.  An edit of the text of a task follows the same rule: it is written and
    saved exactly when the text typed, without the white space around it, is
    not empty and differs from the text of the task; only the text changes. *)
Theorem taskTextEdited_writes (inputValue : string) (task : Task.t) :
  (TasksView.taskTextEdited inputValue task = None <->
     trim inputValue = EmptyString \/ trim inputValue = Task.text task) /\
  (forall task',
     TasksView.taskTextEdited inputValue task = Some task' ->
     Task.text task' = trim inputValue /\
     Task.text task' <> EmptyString /\
     Task.text task' <> Task.text task /\
     trimmed (Task.text task') /\
     Task.id task' = Task.id task /\
     Task.completed task' = Task.completed task /\
     Task.dueDate task' = Task.dueDate task).
Proof.
  unfold TasksView.taskTextEdited.
  destruct (makeEditable_save_cases inputValue) as [[E ->]|(N & T & ->)].
  - split; [split; [left; exact E|reflexivity]|discriminate].
  - rewrite T. cbn [andb].
    destruct (String.eqb (trim inputValue) (Task.text task)) eqn:Q; cbn [negb].
    + apply String.eqb_eq in Q. split; [split; [right; exact Q|reflexivity]|discriminate].
    + apply String.eqb_neq in Q. split.
      * split; [discriminate|]. intros [H|H]; contradiction.
      * intros k' [= <-]. cbn. repeat split; try assumption; apply trim_trimmed.
Qed.

Lemma taskTextEdited_writes_witness :
  TasksView.taskTextEdited " A2 " taskA = Some (Task.set_text "A2" taskA) /\
  Task.text (Task.set_text "A2" taskA) = trim " A2 " /\
  TasksView.taskTextEdited "   " taskA = None.
Proof.
  assert (H : TasksView.taskTextEdited " A2 " taskA = Some (Task.set_text "A2" taskA))
    by reflexivity.
  split; [exact H|]. split.
  - exact (proj1 (proj2 (taskTextEdited_writes " A2 " taskA) _ H)).
  - apply (proj1 (taskTextEdited_writes "   " taskA)). left. reflexivity.
Defined.

(** X22.  The date input of a task writes and saves whenever its value is not the
    due date the task has, and nothing else of the task changes.  A task
    without a date has none that equals a value, so emptying the input of
    such a task writes too.  A date that is emptied is kept as the empty
    string: the task then has no badge, is unscheduled, sorts as today, and
    emptying again writes nothing. *)
Theorem dateEdited_writes (todayStr value : string) (task : Task.t) :
  (TasksView.dateEdited value task = None <-> Task.dueDate task = Some value) /\
  (Task.dueDate task = None -> TasksView.dateEdited value task <> None) /\
  (forall task',
     TasksView.dateEdited value task = Some task' ->
     Task.dueDate task' = Some value /\
     Task.id task' = Task.id task /\
     Task.text task' = Task.text task /\
     Task.completed task' = Task.completed task /\
     TasksView.dateEdited value task' = None /\
     (value = EmptyString ->
        TasksView.dateBadge todayStr task' = None /\
        status todayStr task' = unscheduled /\
        effectiveDate todayStr task' = todayStr)).
Proof.
  unfold TasksView.dateEdited.
  destruct (Task.dueDate task) as [d|] eqn:D.
  - destruct (String.eqb value d) eqn:Q; cbn [negb].
    + apply String.eqb_eq in Q. subst d.
      split; [split; reflexivity|]. split; discriminate.
    + apply String.eqb_neq in Q. split; [|split; [discriminate|]].
      * split; [discriminate|]. intros [= E]. congruence.
      * intros k' [= <-]. cbn. rewrite String.eqb_refl. cbn.
        repeat split; subst; reflexivity.
  - cbn [negb]. split; [split; discriminate|]. split; [discriminate|].
    intros k' [= <-]. cbn. rewrite String.eqb_refl. cbn.
    repeat split; subst; reflexivity.
Qed.

Lemma dateEdited_writes_witness :
  Task.dueDate taskB = None /\
  TasksView.dateEdited "" taskB = Some (Task.set_dueDate "" taskB) /\
  TasksView.dateEdited "" (Task.set_dueDate "" taskB) = None /\
  status jan2 (Task.set_dueDate "" taskB) = unscheduled.
Proof.
  assert (H : TasksView.dateEdited "" taskB = Some (Task.set_dueDate "" taskB))
    by reflexivity.
  destruct (proj2 (proj2 (dateEdited_writes jan2 "" taskB)) _ H)
    as (_ & _ & _ & _ & Again & Cleared).
  split; [reflexivity|]. split; [exact H|]. split; [exact Again|].
  exact (proj1 (proj2 (Cleared eq_refl))).
Defined.

(** X23.  What the Create button of the modal adds, when it adds: one category at
    the end of the document, expanded, of the default colour, never sorted,
    with the name typed and one task with the text typed, both without the
    white space around them; the task is not completed and has the date
    picked, none when the date input is empty.  The id of the task is not the
    id of the category, even at one clock reading. *)
Theorem AddCategoryModal_creates
    (nowC nowT : Z) (nameInput taskInput dateInput : string) (w : World) :
  trim nameInput <> EmptyString -> trim taskInput <> EmptyString ->
  exists category task,
    categories (settings (AddCategoryModal.submit nowC nowT nameInput taskInput dateInput w))
      = categories (settings w) ++ [category] /\
    Category.name category = trim nameInput /\
    trimmed (Category.name category) /\
    Category.isCollapsed category = Some false /\
    Category.color category = Some EmptyString /\
    Category.lastSortOrder category = None /\
    Category.tasks category = [task] /\
    Task.text task = trim taskInput /\
    trimmed (Task.text task) /\
    Task.completed task = false /\
    (dateInput = EmptyString -> Task.dueDate task = None) /\
    (dateInput <> EmptyString -> Task.dueDate task = Some dateInput) /\
    Category.id category = toString nowC /\
    Task.id task = (toString nowT ++ "-task")%string /\
    Task.id task <> Category.id category.
Proof.
  intros N T. apply truthy_nonempty in N, T.
  unfold AddCategoryModal.submit, Plugin.addCategory. rewrite N, T. cbn.
  eexists. eexists. split; [reflexivity|]. cbn.
  repeat split; try apply trim_trimmed.
  - intros ->. reflexivity.
  - intros D. apply truthy_nonempty in D. unfold or_undefined. rewrite D. reflexivity.
  - intros E. symmetry in E. exact (toString_not_task _ _ E).
Qed.

Lemma AddCategoryModal_creates_witness :
  trim " Later " <> EmptyString /\ trim "x" <> EmptyString /\
  exists category task,
    categories (settings (AddCategoryModal.submit 7 7 " Later " "x" "" sample))
      = categories (settings sample) ++ [category] /\
    Category.name category = trim " Later " /\
    Category.tasks category = [task] /\
    Task.dueDate task = None.
Proof.
  assert (N : trim " Later " <> EmptyString) by discriminate.
  assert (T : trim "x" <> EmptyString) by discriminate.
  split; [exact N|]. split; [exact T|].
  destruct (AddCategoryModal_creates 7 7 " Later " "x" "" sample N T)
    as (c & k & E & Hn & _ & _ & _ & _ & Ht & _ & _ & _ & Hd & _).
  exists c, k. split; [exact E|]. split; [exact Hn|]. split; [exact Ht|].
  exact (Hd eq_refl).
Defined.

(** ** The drop handler *)

(** X24.  A drop keeps the category array whole whenever the index that is dragged
    is an index of the array, whatever the index it is dropped on: the
    categories are the same ones, moved at most.  A drop on the block that is
    dragged does nothing; every other drop saves once. *)
Theorem drop_keeps_categories (dragged index : Z) (w : World) :
  (0 <= dragged < Z.of_nat (length (categories (settings w))))%Z ->
  exists w',
    TasksView.drop (Some dragged) index w = Reordered w' /\
    Permutation (categories (settings w)) (categories (settings w')) /\
    (dragged = index -> w' = w) /\
    (dragged <> index -> saved w' = settings w' :: saved w).
Proof.
  intros H. unfold TasksView.drop.
  destruct (Z.eqb_spec dragged index) as [E|N]; cbn [negb].
  - exists w. split; [reflexivity|]. split; [apply Permutation_refl|].
    split; [reflexivity|]. intros C. contradiction.
  - destruct (reorderCategories_clamped dragged index w) as (_ & _ & w' & R & _ & P & S);
      [lia|lia|].
    exists w'. split; [exact R|]. split; [exact P|].
    split; [intros C; contradiction|]. intros _. exact S.
Qed.

Lemma drop_keeps_categories_witness :
  (0 <= 1 < Z.of_nat (length (categories (settings sample))))%Z /\
  exists w',
    TasksView.drop (Some 1%Z) 0 sample = Reordered w' /\
    Permutation (categories (settings sample)) (categories (settings w')).
Proof.
  assert (H : (0 <= 1 < Z.of_nat (length (categories (settings sample))))%Z)
    by (simpl; lia).
  split; [exact H|].
  destruct (drop_keeps_categories 1 0 sample H) as (w' & R & P & _).
  exists w'. split; [exact R|exact P].
Defined.

(** ** The theorems without a premise, on the sample document *)

Lemma deleteCategory_removes_all_witness :
  In home (categories (settings sample)) /\
  Category.id home <> "1"%string /\
  In home (categories (settings (TasksView.deleteCategory "1" sample))) /\
  existsb (hasId "1") (categories (settings (TasksView.deleteCategory "1" sample))) = false.
Proof.
  assert (H1 : In home (categories (settings sample))) by (right; left; reflexivity).
  assert (H2 : Category.id home <> "1"%string) by discriminate.
  destruct (deleteCategory_removes_all "1" sample) as (E & I & _).
  split; [exact H1|]. split; [exact H2|]. split; [|exact E].
  apply (proj2 (I home)). split; [exact H1|exact H2].
Defined.

Lemma toggleAllCategories_again_witness :
  In (Category.set_isCollapsed false work)
    (categories (settings (TasksView.toggleAllCategories
                             (TasksView.toggleAllCategories sample)))) /\
  Category.isCollapsed (Category.set_isCollapsed false work) = Some false.
Proof.
  assert (H : In (Category.set_isCollapsed false work)
                (categories (settings (TasksView.toggleAllCategories
                                         (TasksView.toggleAllCategories sample)))))
    by (left; reflexivity).
  split; [exact H|].
  exact (proj1 (toggleAllCategories_again sample) _ H).
Defined.

